(** * Terraform project validator: a shallow embedding of
      [validator_version_4.py] and the properties of its validation pipeline.

    The program talks to the operating system (directory listings, path
    existence, subprocesses), to the network ([requests.head]) and to two
    libraries ([hcl2.load], [urllib.parse.urlparse]).  Those collaborators are
    gathered in a [World] record of answers; the program itself is embedded
    as functions in a small monad that carries a Python outcome (a returned
    value or a raised exception) together with the trace of the external
    calls and log records it made. *)

From Stdlib Require Import String Ascii List ZArith Bool Arith Lia DecimalString.
Import ListNotations.
Local Open Scope string_scope.
Local Open Scope list_scope.
Set Warnings "-register-all".

(** ** Python outcomes *)

(** The exception classes the program distinguishes in its [except] clauses.
    Every class is a subclass of [Exception]; [RequestException] stands for
    [requests.RequestException] and all its subclasses (connection errors,
    timeouts, invalid URLs). *)
Inductive ExcClass : Type :=
| CalledProcessError
| FileNotFoundError
| RequestException
| AttributeError
| OtherException (name : string).

Record PyExc : Type := mkExc { exc_class : ExcClass; exc_str : string }.

Inductive PyResult (A : Type) : Type :=
| Returned (a : A)
| Raised (e : PyExc).
Arguments Returned {A} a.
Arguments Raised {A} e.

Definition is_CalledProcessError (e : PyExc) : bool :=
  match exc_class e with CalledProcessError => true | _ => false end.
Definition is_FileNotFoundError (e : PyExc) : bool :=
  match exc_class e with FileNotFoundError => true | _ => false end.
Definition is_RequestException (e : PyExc) : bool :=
  match exc_class e with RequestException => true | _ => false end.

(** ** Trace of external calls and log records *)

Inductive Level : Type := INFO | WARNING | ERROR.

Inductive Event : Type :=
| EvLog (lvl : Level) (msg : string)      (* self.logger.<lvl>(msg) *)
| EvSubprocess (argv : list string)       (* subprocess.run(argv, ...) *)
| EvListdir (path : string)               (* os.listdir(path) *)
| EvWalk (path : string)                  (* os.walk(path) *)
| EvLoad (path : string)                  (* open(path) + hcl2.load *)
| EvHead (url : string)                   (* requests.head(url, ...) *)
| EvExists (path : string).               (* os.path.exists(path) *)

Definition Trace : Type := list Event.

(** ** The monad: an outcome and the events emitted on the way *)

Definition Py (A : Type) : Type := (PyResult A * Trace)%type.

Definition ret {A} (a : A) : Py A := (Returned a, []).
Definition raise {A} (e : PyExc) : Py A := (Raised e, []).
Definition emit (ev : Event) : Py unit := (Returned tt, [ev]).
Definition lift {A} (r : PyResult A) : Py A := (r, []).

Definition bind {A B} (m : Py A) (k : A -> Py B) : Py B :=
  match fst m with
  | Returned a => (fst (k a), snd m ++ snd (k a))
  | Raised e => (Raised e, snd m)
  end.

(** [try: body  except Exception as e: handler e].  A handler that does not
    match the class re-raises, which is how the narrower [except] clauses
    are written below. *)
Definition try_except {A} (body : Py A) (handler : PyExc -> Py A) : Py A :=
  match fst body with
  | Returned a => (Returned a, snd body)
  | Raised e => (fst (handler e), snd body ++ snd (handler e))
  end.

Declare Scope py_scope.
Delimit Scope py_scope with py.
Notation "x <- m ;; k" := (bind m (fun x => k))
  (at level 100, m at next level, right associativity) : py_scope.
Notation "m ;; k" := (bind m (fun _ => k))
  (at level 100, right associativity) : py_scope.
Local Open Scope py_scope.

Definition logger (lvl : Level) (msg : string) : Py unit := emit (EvLog lvl msg).

(** ** Python values, as the parser returns them *)

Inductive PyVal : Type :=
| PNone
| PBool (b : bool)
| PInt (z : Z)
| PStr (s : string)
| PList (l : list PyVal)
| PDict (d : list (string * PyVal)).

(** A [dict] keeps insertion order; it is an association list. *)
Definition PyDict : Type := list (string * PyVal).

Fixpoint dict_get {V} (k : string) (d : list (string * V)) : option V :=
  match d with
  | [] => None
  | (k', v) :: rest => if String.eqb k' k then Some v else dict_get k rest
  end.

Definition type_name (v : PyVal) : string :=
  match v with
  | PNone => "NoneType"
  | PBool _ => "bool"
  | PInt _ => "int"
  | PStr _ => "str"
  | PList _ => "list"
  | PDict _ => "dict"
  end.

(** Truth value of an object, as tested by [if source:]. *)
Definition truthy (v : PyVal) : bool :=
  match v with
  | PNone => false
  | PBool b => b
  | PInt z => negb (Z.eqb z 0)
  | PStr s => negb (String.eqb s "")
  | PList l => match l with [] => false | _ => true end
  | PDict d => match d with [] => false | _ => true end
  end.

Definition no_attribute (v : PyVal) (attr : string) : PyExc :=
  mkExc AttributeError ("'" ++ type_name v ++ "' object has no attribute '" ++ attr ++ "'").

(** [v.get(key)]: only a dict has the method; a missing key gives [None]. *)
Definition py_get (v : PyVal) (key : string) : Py PyVal :=
  match v with
  | PDict d => ret (match dict_get key d with Some x => x | None => PNone end)
  | _ => raise (no_attribute v "get")
  end.

(** [v.items()] *)
Definition py_items (v : PyVal) : Py (list (string * PyVal)) :=
  match v with
  | PDict d => ret d
  | _ => raise (no_attribute v "items")
  end.

(** ** String builtins *)

(** [s.endswith(suffix)] *)
Definition endswith (s suffix : string) : bool :=
  let n := String.length s in
  let m := String.length suffix in
  (m <=? n)%nat && String.eqb (substring (n - m) m s) suffix.

Definition startswith (s p : string) : bool := String.prefix p s.

(** [os.path.join(a, b)] on POSIX. *)
Definition os_path_join (a b : string) : string :=
  if startswith b "/" then b
  else if String.eqb a "" || endswith a "/" then a ++ b
  else a ++ "/" ++ b.

(** The interpreter's [repr] of a str: which quote it picks, what it
    escapes and which characters it holds printable belong to the Python
    build, not to the program, so the program is stated for any
    interpreter. *)
Class Interpreter : Type := { repr_of_str : string -> string }.

(** [repr] of a list of strings, which is what an f-string prints for it:
    the [repr] of each element, separated by a comma and a space, between
    brackets. *)
Definition repr_list {interp : Interpreter} (l : list string) : string :=
  "[" ++ String.concat ", " (map repr_of_str l) ++ "]".

Definition newline : string := String "010"%char "".

(** ** The file tree below the directory under validation *)

Inductive FsNode : Type :=
| FsFile
| FsDir (entries : list (string * FsNode)).

Definition is_dir (n : FsNode) : bool :=
  match n with FsDir _ => true | FsFile => false end.

(** [os.listdir]: the names of all entries, files and directories alike. *)
Definition listdir_names (entries : list (string * FsNode)) : list string :=
  map fst entries.

Definition dir_names (entries : list (string * FsNode)) : list string :=
  map fst (filter (fun e => is_dir (snd e)) entries).
Definition file_names (entries : list (string * FsNode)) : list string :=
  map fst (filter (fun e => negb (is_dir (snd e))) entries).

(** [os.walk(top)], top-down: the triple of [top] first, then the walk of
    each sub-directory in listing order. *)
Fixpoint walk_node (top : string) (n : FsNode)
  : list (string * list string * list string) :=
  match n with
  | FsFile => []
  | FsDir entries =>
      (top, dir_names entries, file_names entries) ::
      (fix walk_entries (l : list (string * FsNode)) :=
         match l with
         | [] => []
         | (name, child) :: rest =>
             walk_node (os_path_join top name) child ++ walk_entries rest
         end) entries
  end.

Definition walk_triples (top : string) (entries : list (string * FsNode))
  : list (string * list string * list string) :=
  walk_node top (FsDir entries).

(** ** The collaborators outside the repository *)

(** What [subprocess.run(..., capture_output=True, text=True)] returns. *)
Record CompletedProcess : Type := mkCompleted {
  returncode : Z;
  stdout : string;
  stderr : string
}.

Record World : Type := mkWorld {
  (* entries of the directory under validation, in listing order *)
  tree : list (string * FsNode);
  (* os.path.exists *)
  path_exists : string -> bool;
  (* open(path) followed by hcl2.load: the parsed dict, or the error *)
  load_file : string -> PyResult PyDict;
  (* requests.head(url, allow_redirects=True, timeout=5): the status code
     of the response, or the exception raised *)
  requests_head : string -> PyResult Z;
  (* subprocess.run(argv, capture_output=True, text=True) *)
  subprocess_run : list string -> PyResult CompletedProcess;
  (* urlparse(s).scheme for a str argument *)
  urlparse_scheme : string -> PyResult string;
  (* the error os.listdir(self.directory) raises, if it raises; otherwise
     the call returns the names of [tree] *)
  listdir_error : option PyExc
}.

(** ** The program *)

Record ValidationResult : Type := mkValidationResult {
  file_path : string;
  issues : list string;
  is_valid : bool
}.

Section TerraformValidator.

Context {interp : Interpreter}.
Variable w : World.
(* self.directory *)
Variable directory : string.

Definition run_subprocess (argv : list string) : Py CompletedProcess :=
  emit (EvSubprocess argv) ;; lift (subprocess_run w argv).

(** The three [except] clauses shared by the four runners, tried in the
    order of the source; each logs an error and returns [False]. *)
Definition terraform_except (what : string) (e : PyExc) : Py bool :=
  if is_CalledProcessError e then
    logger ERROR ("Error running terraform " ++ what ++ ": " ++ exc_str e) ;;
    ret false
  else if is_FileNotFoundError e then
    logger ERROR "Terraform command not found. Please ensure terraform is installed and in your PATH" ;;
    ret false
  else
    logger ERROR ("Unexpected error running terraform " ++ what ++ ": " ++ exc_str e) ;;
    ret false.

Definition run_terraform_fmt : Py bool :=
  try_except
    (logger INFO "Running terraform fmt check..." ;;
     result <- run_subprocess ["terraform"; "fmt"; "-check"; directory] ;;
     if Z.eqb (returncode result) 0 then
       logger INFO "Terraform formatting check passed" ;;
       ret true
     else
       logger WARNING ("Terraform formatting issues found:" ++ newline ++ stdout result) ;;
       ret false)
    (terraform_except "fmt").

Definition run_terraform_init : Py bool :=
  try_except
    (logger INFO "Running terraform init..." ;;
     result <- run_subprocess ["terraform"; "init"; directory] ;;
     if Z.eqb (returncode result) 0 then
       logger INFO "Terraform init completed successfully" ;;
       ret true
     else
       logger WARNING ("Terraform init issues found:" ++ newline ++ stderr result) ;;
       ret false)
    (terraform_except "init").

Definition run_terraform_plan : Py bool :=
  try_except
    (logger INFO "Running terraform plan..." ;;
     result <- run_subprocess ["terraform"; "plan"; directory] ;;
     if Z.eqb (returncode result) 0 then
       logger INFO "Terraform plan completed successfully" ;;
       ret true
     else
       logger WARNING ("Terraform plan issues found:" ++ newline ++ stderr result) ;;
       ret false)
    (terraform_except "plan").

Definition run_terraform_validate : Py bool :=
  try_except
    (logger INFO "Running terraform validate..." ;;
     result <- run_subprocess ["terraform"; "validate"; directory] ;;
     if Z.eqb (returncode result) 0 then
       logger INFO "Terraform validation passed" ;;
       ret true
     else
       logger WARNING ("Terraform validation issues found:" ++ newline ++ stdout result) ;;
       ret false)
    (terraform_except "validate").

(** *** parse_terraform_file *)

Definition parse_terraform_file (file_path : string) : Py PyDict :=
  try_except
    (emit (EvLoad file_path) ;; lift (load_file w file_path))
    (fun e =>
       logger ERROR ("Error parsing file " ++ file_path ++ ": " ++ exc_str e) ;;
       raise e).

(** *** check_module_sources *)

Definition unreachable_source_msg (module_name source : string) : string :=
  "Module " ++ module_name ++ ": Unreachable source URL " ++ source.

Definition missing_local_msg (module_name source : string) : string :=
  "Module " ++ module_name ++ ": Local source path does not exist " ++ source.

Definition probe (url : string) : Py Z :=
  emit (EvHead url) ;; lift (requests_head w url).

Definition os_path_exists (path : string) : Py bool :=
  emit (EvExists path) ;; ret (path_exists w path).

(** [urlparse(source).scheme].  A str goes to the library; any other
    non-empty object has no [decode] method, which is what the library
    calls on an argument that is not a str. *)
Definition urlparse (source : PyVal) : Py string :=
  match source with
  | PStr s => lift (urlparse_scheme w s)
  | _ => raise (no_attribute source "decode")
  end.

(** The text of a str object; [check_module] only reaches it after
    [urlparse] has returned, hence on a str. *)
Definition str_of (v : PyVal) : string :=
  match v with PStr s => s | _ => "" end.

(** The body of the [for module_name, config in modules.items()] loop; it
    returns the list [invalid_sources] after its appends. *)
Definition check_module (module_name : string) (config : PyVal)
    (invalid_sources : list string) : Py (list string) :=
  source <- py_get config "source" ;;
  if truthy source then
    scheme <- urlparse source ;;
    let source := str_of source in
    if String.eqb scheme "http" || String.eqb scheme "https" then
      try_except
        (status_code <- probe source ;;
         if (400 <=? status_code)%Z then
           ret (invalid_sources ++ [unreachable_source_msg module_name source])
         else ret invalid_sources)
        (fun e =>
           if is_RequestException e then
             logger WARNING ("Error reaching module source URL " ++ source ++ ": " ++ exc_str e) ;;
             ret (invalid_sources ++ [unreachable_source_msg module_name source])
           else raise e)
    else if String.eqb scheme "" then
      let local_path := os_path_join directory source in
      found <- os_path_exists local_path ;;
      if negb found then
        ret (invalid_sources ++ [missing_local_msg module_name source])
      else ret invalid_sources
    else ret invalid_sources
  else ret invalid_sources.

Fixpoint for_modules (items : list (string * PyVal)) (invalid_sources : list string)
  : Py (list string) :=
  match items with
  | [] => ret invalid_sources
  | (module_name, config) :: rest =>
      invalid_sources <- check_module module_name config invalid_sources ;;
      for_modules rest invalid_sources
  end.

Definition check_module_sources (parser_data : PyDict) : Py (list string) :=
  let modules := match dict_get "module" parser_data with
                 | Some m => m
                 | None => PDict []
                 end in
  let invalid_sources := [] in
  items <- py_items modules ;;
  for_modules items invalid_sources.

(** *** extract_urls and check_url_reachability *)

Definition extract_urls (parser_data : PyDict) : Py (list string) :=
  let urls := [] in
  ret urls.

Fixpoint for_urls (urls : list string) (unreachable_urls : list string)
  : Py (list string) :=
  match urls with
  | [] => ret unreachable_urls
  | url :: rest =>
      unreachable_urls <-
        try_except
          (status_code <- probe url ;;
           if (400 <=? status_code)%Z then ret (unreachable_urls ++ [url])
           else ret unreachable_urls)
          (fun e =>
             if is_RequestException e then
               logger WARNING ("Error reaching URL " ++ url ++ ": " ++ exc_str e) ;;
               ret (unreachable_urls ++ [url])
             else raise e) ;;
      for_urls rest unreachable_urls
  end.

Definition check_url_reachability (parser_data : PyDict) : Py (list string) :=
  urls <- extract_urls parser_data ;;
  let unreachable_urls := [] in
  for_urls urls unreachable_urls.

(** *** validate_file *)

Definition nonempty {A} (l : list A) : bool :=
  match l with [] => false | _ => true end.

Definition validate_file (file_path : string) : Py ValidationResult :=
  logger INFO ("Validating file: " ++ file_path) ;;
  let issues := [] in
  try_except
    (parser_data <- parse_terraform_file file_path ;;
     invalid_sources <- check_module_sources parser_data ;;
     let issues :=
       if nonempty invalid_sources then
         issues ++ [("Invalid or unreachable module sources found: " ++ repr_list invalid_sources)%string]
       else issues in
     unreachable_urls <- check_url_reachability parser_data ;;
     let issues :=
       if nonempty unreachable_urls then
         issues ++ [("Unreachable URLs found: " ++ repr_list unreachable_urls)%string]
       else issues in
     ret (mkValidationResult file_path issues (Nat.eqb (List.length issues) 0)))
    (fun e =>
       logger ERROR ("Error validating file " ++ file_path ++ ": " ++ exc_str e) ;;
       ret (mkValidationResult file_path [("Error during validation: " ++ exc_str e)%string] false)).

(** *** validate_directory *)

Definition is_tf (name : string) : bool := endswith name ".tf".

Fixpoint for_files (root : string) (files : list string)
    (results : list ValidationResult) : Py (list ValidationResult) :=
  match files with
  | [] => ret results
  | file :: rest =>
      results <-
        (if is_tf file then
           let file_path := os_path_join root file in
           r <- validate_file file_path ;;
           ret (results ++ [r])
         else ret results) ;;
      for_files root rest results
  end.

Fixpoint for_walk (triples : list (string * list string * list string))
    (results : list ValidationResult) : Py (list ValidationResult) :=
  match triples with
  | [] => ret results
  | (root, _, files) :: rest =>
      results <- for_files root files results ;;
      for_walk rest results
  end.

Definition os_listdir : Py (list string) :=
  emit (EvListdir directory) ;;
  match listdir_error w with
  | Some e => raise e
  | None => ret (listdir_names (tree w))
  end.

Definition os_walk : Py (list (string * list string * list string)) :=
  emit (EvWalk directory) ;; ret (walk_triples directory (tree w)).

Definition warn_unless (ok : bool) (msg : string) : Py unit :=
  if negb ok then logger WARNING msg else ret tt.

Definition validate_directory : Py (list ValidationResult) :=
  let results := [] in
  names <- os_listdir ;;
  let tf_files := filter is_tf names in
  if negb (nonempty tf_files) then
    logger WARNING ("No Terraform files found in " ++ directory) ;;
    ret results
  else
    ok <- run_terraform_fmt ;;
    warn_unless ok "Terraform formatting check failed" ;;
    ok <- run_terraform_init ;;
    warn_unless ok "Terraform init failed" ;;
    ok <- run_terraform_validate ;;
    warn_unless ok "Terraform syntax validation failed" ;;
    ok <- run_terraform_plan ;;
    warn_unless ok "Terraform plan failed" ;;
    triples <- os_walk ;;
    for_walk triples results.

End TerraformValidator.

(** ** The URL Extractor as the specification words it

    A recursive walk over mappings, sequences and scalars that collects the
    URL-shaped strings; a string is taken as URL-shaped when it starts with
    an [http://] or [https://] prefix.  It is only compared with
    [extract_urls]; nothing in the program uses it. *)

Definition url_shaped (s : string) : bool :=
  startswith s "http://" || startswith s "https://".

Fixpoint spec_strings_within (v : PyVal) : list string :=
  match v with
  | PStr s => [s]
  | PList l => flat_map spec_strings_within l
  | PDict d => flat_map (fun kv => spec_strings_within (snd kv)) d
  | _ => []
  end.

Definition spec_extract_urls (parser_data : PyDict) : list string :=
  filter url_shaped (spec_strings_within (PDict parser_data)).

(** ** Sample worlds, used to run the program on concrete inputs *)

Module Sample.

(** [repr] of a str made of ASCII characters, which is all the sample
    files hold: the quote is a double quote only when the text has a single
    quote and no double one; the quote and the backslash are escaped,
    control characters are written [\t], [\n], [\r] or [\xNN]. *)
Definition dquote : ascii := "034"%char.
Definition squote : ascii := "039"%char.
Definition backslash : ascii := "092"%char.

Fixpoint contains_char (c : ascii) (s : string) : bool :=
  match s with
  | EmptyString => false
  | String c' rest => Ascii.eqb c c' || contains_char c rest
  end.

Definition hex_digit (n : nat) : ascii :=
  nth n ["0"; "1"; "2"; "3"; "4"; "5"; "6"; "7"; "8"; "9";
         "a"; "b"; "c"; "d"; "e"; "f"]%char "0"%char.

Definition repr_char (q c : ascii) : string :=
  let n := nat_of_ascii c in
  if Ascii.eqb c q || Ascii.eqb c backslash then String backslash (String c "")
  else if (n =? 9)%nat then "\t"
  else if (n =? 10)%nat then "\n"
  else if (n =? 13)%nat then "\r"
  else if (n <? 32)%nat || (n =? 127)%nat
       then "\x" ++ String (hex_digit (n / 16)) (String (hex_digit (n mod 16)) "")
  else String c "".

Fixpoint repr_chars (q : ascii) (s : string) : string :=
  match s with
  | EmptyString => ""
  | String c rest => repr_char q c ++ repr_chars q rest
  end.

Definition repr_ascii (s : string) : string :=
  let q := if contains_char squote s && negb (contains_char dquote s)
           then dquote else squote in
  String q (repr_chars q s ++ String q "").

(** The interpreter of the samples. *)
Definition interpreter : Interpreter := {| repr_of_str := repr_ascii |}.

Definition is_alpha (c : ascii) : bool :=
  let n := nat_of_ascii c in
  ((65 <=? n) && (n <=? 90) || (97 <=? n) && (n <=? 122))%nat.

Definition is_scheme_char (c : ascii) : bool :=
  let n := nat_of_ascii c in
  (is_alpha c || (48 <=? n) && (n <=? 57) || (n =? 43) || (n =? 45) || (n =? 46))%nat.

Definition lower (c : ascii) : ascii :=
  let n := nat_of_ascii c in
  if ((65 <=? n) && (n <=? 90))%nat then ascii_of_nat (n + 32) else c.

Fixpoint all_chars (p : ascii -> bool) (s : string) : bool :=
  match s with
  | EmptyString => true
  | String c rest => p c && all_chars p rest
  end.

Fixpoint map_chars (f : ascii -> ascii) (s : string) : string :=
  match s with
  | EmptyString => ""
  | String c rest => String (f c) (map_chars f rest)
  end.

(** The scheme of a URL: the text before the first colon when it starts
    with a letter and holds scheme characters only, in lower case. *)
Definition scheme (url : string) : string :=
  match index 0 ":" url with
  | Some (S i) =>
      let head := substring 0 (S i) url in
      match head with
      | String c _ =>
          if is_alpha c && all_chars is_scheme_char head
          then map_chars lower head else ""
      | EmptyString => ""
      end
  | _ => ""
  end.

Definition project : list (string * FsNode) :=
  [("main.tf", FsFile);
   ("README.md", FsFile);
   ("modules", FsDir [("vpc", FsDir [("vpc.tf", FsFile); ("notes.txt", FsFile)])])].

Definition main_tf : PyDict :=
  [("module",
    PDict [("vpc", PDict [("source", PStr "./modules/vpc")]);
           ("mirror", PDict [("source", PStr "https://example.invalid/mod")]);
           ("registry", PDict [("source", PStr "git::ssh://example.invalid/repo")]);
           ("blank", PDict [("source", PStr "")]);
           ("bare", PDict [("version", PStr "1.0")]);
           ("gone", PDict [("source", PStr "./missing")])])].

Definition load (path : string) : PyResult PyDict :=
  if String.eqb path "/proj/main.tf" then Returned main_tf
  else if String.eqb path "/proj/modules/vpc/vpc.tf"
       then Raised (mkExc (OtherException "UnexpectedToken") "Unexpected token at line 1")
  else Raised (mkExc FileNotFoundError "No such file or directory").

Definition exists_on_disk (path : string) : bool :=
  String.eqb path "/proj" || String.eqb path "/proj/" ||
  String.eqb path "/proj/./modules/vpc".

(** terraform installed and content; every URL answers 404. *)
Definition world : World :=
  {| tree := project;
     path_exists := exists_on_disk;
     load_file := load;
     requests_head := fun _ => Returned 404%Z;
     subprocess_run := fun _ => Returned (mkCompleted 0 "" "");
     urlparse_scheme := fun s => Returned (scheme s);
     listdir_error := None |}.

(** The same files and network, but no terraform binary. *)
Definition world_without_terraform : World :=
  {| tree := project;
     path_exists := exists_on_disk;
     load_file := load;
     requests_head := fun _ => Returned 404%Z;
     subprocess_run := fun _ => Raised (mkExc FileNotFoundError "terraform");
     urlparse_scheme := fun s => Returned (scheme s);
     listdir_error := None |}.

(** A directory whose only configuration files sit in a sub-directory. *)
Definition world_nested_only : World :=
  {| tree := [("README.md", FsFile); ("modules", FsDir [("vpc.tf", FsFile)])];
     path_exists := exists_on_disk;
     load_file := load;
     requests_head := fun _ => Returned 404%Z;
     subprocess_run := fun _ => Returned (mkCompleted 0 "" "");
     urlparse_scheme := fun s => Returned (scheme s);
     listdir_error := None |}.

(** One module with a remote source that answers 404. *)
Definition remote_tf : PyDict :=
  [("module", PDict [("vpc", PDict [("source", PStr "http://example.invalid/mod")])])].

Definition world_remote : World :=
  {| tree := [("main.tf", FsFile)];
     path_exists := fun _ => false;
     load_file := fun _ => Returned remote_tf;
     requests_head := fun _ => Returned 404%Z;
     subprocess_run := fun _ => Returned (mkCompleted 0 "" "");
     urlparse_scheme := fun s => Returned (scheme s);
     listdir_error := None |}.

(** A file in the style of older parsers, which wrap attribute values in
    lists: the second block's source is a list holding the string. *)
Definition legacy_tf : PyDict :=
  [("module",
    PDict [("first", PDict [("source", PStr "./missing")]);
           ("second", PDict [("source", PList [PStr "./missing"])]);
           ("third", PDict [("source", PStr "https://example.invalid/mod")])])].

Definition world_legacy : World :=
  {| tree := [("main.tf", FsFile)];
     path_exists := exists_on_disk;
     load_file := fun _ => Returned legacy_tf;
     requests_head := fun _ => Returned 404%Z;
     subprocess_run := fun _ => Returned (mkCompleted 0 "" "");
     urlparse_scheme := fun s => Returned (scheme s);
     listdir_error := None |}.

(** A file whose "module" section is a list of one-block mappings. *)
Definition listed_tf : PyDict :=
  [("module",
    PList [PDict [("vpc", PDict [("source", PStr "./missing")])]])].

Definition world_listed : World :=
  {| tree := [("main.tf", FsFile)];
     path_exists := exists_on_disk;
     load_file := fun _ => Returned listed_tf;
     requests_head := fun _ => Returned 404%Z;
     subprocess_run := fun _ => Returned (mkCompleted 0 "" "");
     urlparse_scheme := fun s => Returned (scheme s);
     listdir_error := None |}.

(** Probes that answer 200 for one host, 404 for another, and fail to
    connect otherwise. *)
Definition mixed_head (url : string) : PyResult Z :=
  if String.eqb url "https://up.example/" then Returned 200%Z
  else if String.eqb url "https://gone.example/" then Returned 404%Z
  else Raised (mkExc RequestException "connection refused").

Definition world_mixed : World :=
  {| tree := project;
     path_exists := exists_on_disk;
     load_file := load;
     requests_head := mixed_head;
     subprocess_run := fun _ => Returned (mkCompleted 1 "" "error");
     urlparse_scheme := fun s => Returned (scheme s);
     listdir_error := None |}.

(** A file without module blocks, in a world where nothing answers. *)
Definition plain_tf : PyDict :=
  [("resource", PDict [("bucket", PDict [("name", PStr "logs")])])].

Definition world_plain : World :=
  {| tree := [("main.tf", FsFile)];
     path_exists := fun _ => false;
     load_file := fun _ => Returned plain_tf;
     requests_head := fun _ => Raised (mkExc RequestException "network is down");
     subprocess_run := fun _ => Raised (mkExc FileNotFoundError "terraform");
     urlparse_scheme := fun s => Returned (scheme s);
     listdir_error := None |}.

Definition with_url : PyDict :=
  [("resource",
    PDict [("probe", PDict [("endpoints", PList [PStr "https://example.com/health"])])])].

(** A file whose last block has a source that [urlparse] refuses. *)
Definition sibling_tf : PyDict :=
  [("module",
    PDict [("gone", PDict [("source", PStr "./missing")]);
           ("vpc", PDict [("source", PStr "http://example.invalid/mod")]);
           ("bad", PDict [("source", PStr "http://[bad")])])].

Definition strict_scheme (url : string) : PyResult string :=
  if String.eqb url "http://[bad"
  then Raised (mkExc (OtherException "ValueError") "Invalid IPv6 URL")
  else Returned (scheme url).

Definition world_sibling : World :=
  {| tree := [("main.tf", FsFile)];
     path_exists := exists_on_disk;
     load_file := fun _ => Returned sibling_tf;
     requests_head := fun _ => Returned 404%Z;
     subprocess_run := fun _ => Returned (mkCompleted 0 "" "");
     urlparse_scheme := strict_scheme;
     listdir_error := None |}.

(** One module whose remote source holds a backslash. *)
Definition backslash_tf : PyDict :=
  [("module", PDict [("vpc", PDict [("source", PStr "http://example.invalid/a\b")])])].

Definition world_backslash : World :=
  {| tree := [("main.tf", FsFile)];
     path_exists := exists_on_disk;
     load_file := fun _ => Returned backslash_tf;
     requests_head := fun _ => Returned 404%Z;
     subprocess_run := fun _ => Returned (mkCompleted 0 "" "");
     urlparse_scheme := fun s => Returned (scheme s);
     listdir_error := None |}.

(** A directory whose only entry is a sub-directory named like a
    configuration file. *)
Definition world_tf_directory : World :=
  {| tree := [("mods.tf", FsDir [("a.tf", FsFile)])];
     path_exists := exists_on_disk;
     load_file := fun _ => Returned plain_tf;
     requests_head := fun _ => Returned 404%Z;
     subprocess_run := fun _ => Returned (mkCompleted 0 "" "");
     urlparse_scheme := fun s => Returned (scheme s);
     listdir_error := None |}.

End Sample.

(** ** Vocabulary of the properties *)

(** The subprocess for [argv] was spawned and exited with status 0. *)
Definition exits_zero (w : World) (argv : list string) : Prop :=
  exists cp, subprocess_run w argv = Returned cp /\ returncode cp = 0%Z.

(** [text] occurs in [entry]. *)
Definition mentions (text entry : string) : bool :=
  match index 0 text entry with
  | Some _ => true
  | None => false
  end.

(** The issues recorded for a list of invalid module sources. *)
Definition module_issues {interp : Interpreter} (invalid_sources : list string)
  : list string :=
  if nonempty invalid_sources then
    [("Invalid or unreachable module sources found: " ++ repr_list invalid_sources)%string]
  else [].

Definition failure_result (file_path : string) (e : PyExc) : ValidationResult :=
  mkValidationResult file_path [("Error during validation: " ++ exc_str e)%string] false.

(** The configuration files met by the recursive walk, in walk order. *)
Definition candidate_files (directory : string) (entries : list (string * FsNode))
  : list string :=
  flat_map (fun '(root, _, files) => map (os_path_join root) (filter is_tf files))
           (walk_triples directory entries).

(** [r] is the result [validate_file] returns for [file_path]. *)
Definition validated_as {interp : Interpreter} (w : World) (directory : string)
    (file_path : string) (r : ValidationResult) : Prop :=
  fst (validate_file w directory file_path) = Returned r.

Definition map_py {A B} (f : A -> B) (m : Py A) : Py B :=
  (match fst m with Returned a => Returned (f a) | Raised e => Raised e end, snd m).

(** Two runs see the same external answers for [file_path]: the same parse
    outcome, the same probe responses, the same existence answers and the
    same URL parsing.  Nothing is asked of the subprocess outcomes or of the
    directory tree. *)
Definition same_answers (w1 w2 : World) (file_path : string) : Prop :=
  load_file w1 file_path = load_file w2 file_path /\
  (forall url, requests_head w1 url = requests_head w2 url) /\
  (forall path, path_exists w1 path = path_exists w2 path) /\
  (forall s, urlparse_scheme w1 s = urlparse_scheme w2 s).

(** ** The constructor and the command-line entry point *)

(** What [main] produces besides the events of the validator: the log file
    it opens, the lines it prints and the records it sends to the root
    logger. *)
Inductive Output : Type :=
| OpenLogFile (path : string)            (* logging.FileHandler(path) *)
| Stdout (text : string)                 (* print(text) *)
| RootLog (lvl : Level) (msg : string)   (* logging.<lvl>(msg) *)
| Pipeline (ev : Event).                 (* an event of the validator *)

Definition Out (A : Type) : Type := (PyResult A * list Output)%type.

Definition out_ret {A} (a : A) : Out A := (Returned a, []).
Definition out_raise {A} (e : PyExc) : Out A := (Raised e, []).
Definition logging (lvl : Level) (msg : string) : Out unit :=
  (Returned tt, [RootLog lvl msg]).
Definition pipeline {A} (m : Py A) : Out A := (fst m, map Pipeline (snd m)).

Definition out_bind {A B} (m : Out A) (k : A -> Out B) : Out B :=
  match fst m with
  | Returned a => (fst (k a), snd m ++ snd (k a))
  | Raised e => (Raised e, snd m)
  end.

Definition out_try_except {A} (body : Out A) (handler : PyExc -> Out A) : Out A :=
  match fst body with
  | Returned a => (Returned a, snd body)
  | Raised e => (fst (handler e), snd body ++ snd (handler e))
  end.

Declare Scope out_scope.
Delimit Scope out_scope with out.
Notation "x <- m ;; k" := (out_bind m (fun x => k))
  (at level 100, m at next level, right associativity) : out_scope.
Notation "m ;; k" := (out_bind m (fun _ => k))
  (at level 100, right associativity) : out_scope.

(** [str(n)] for a non-negative int. *)
Definition str_of_nat (n : nat) : string := NilEmpty.string_of_uint (Nat.to_uint n).

Section EntryPoint.

Context {interp : Interpreter}.
Variable w : World.
(* os.path.isdir *)
Variable os_path_isdir : string -> bool.
(* the error logging.FileHandler(path) raises when it cannot open the file
   for appending, if it raises *)
Variable log_file_error : string -> option PyExc.
(* the error print(text) raises when standard output refuses the text, if
   it raises *)
Variable stdout_error : string -> option PyExc.

Definition print (text : string) : Out unit :=
  match stdout_error text with
  | Some e => out_raise e
  | None => (Returned tt, [Stdout text])
  end.

(** Lines 276-285: the handlers of the root logger are removed and
    [logging.basicConfig] installs a [FileHandler] on the log file, which
    opens it, and a [StreamHandler]. *)
Definition configure_logging (log_file : string) : Out unit :=
  (match log_file_error log_file with
   | Some e => Raised e
   | None => Returned tt
   end, [OpenLogFile log_file]).

(** [TerraformValidator.__init__]; the object it builds is represented by
    its [directory] attribute. *)
Definition TerraformValidator_init (directory : string) : Py string :=
  found <- os_path_exists w directory ;;
  if negb found then
    raise (mkExc (OtherException "ValueError")
                 ("Directory does not exist: " ++ directory))
  else if negb (os_path_isdir directory) then
    raise (mkExc (OtherException "ValueError")
                 ("Path is not a directory: " ++ directory))
  else
    logger INFO ("Initializing validator for directory: " ++ directory) ;;
    ret directory.

Local Open Scope out_scope.

Fixpoint for_issues (issues : list string) : Out unit :=
  match issues with
  | [] => out_ret tt
  | issue :: rest =>
      logging ERROR ("  - " ++ issue) ;;
      for_issues rest
  end.

(** The [for result in results] loop of [main]; it returns [has_errors]. *)
Fixpoint for_results (results : list ValidationResult) (has_errors : bool)
  : Out bool :=
  match results with
  | [] => out_ret has_errors
  | result :: rest =>
      has_errors <-
        (if negb (is_valid result) then
           let has_errors := true in
           logging ERROR (newline ++ "File: " ++ file_path result) ;;
           for_issues (issues result) ;;
           out_ret has_errors
         else
           logging INFO ("File " ++ file_path result ++ " passed validation") ;;
           out_ret has_errors) ;;
      for_results rest has_errors
  end.

(** [main], from the parsed arguments [--path] and [--log-file] on. *)
Definition main (path log_file : string) : Out unit :=
  out_try_except
    (configure_logging log_file ;;
     directory <- pipeline (TerraformValidator_init path) ;;
     results <- pipeline (validate_directory w directory) ;;
     let has_errors := false in
     print (newline ++ "Validation Results:") ;;
     print "==================" ;;
     has_errors <- for_results results has_errors ;;
     print (newline ++ "Validation Summary:") ;;
     print "==================" ;;
     print ("Total files checked: " ++ str_of_nat (List.length results)) ;;
     print ("Files with issues: " ++
            str_of_nat (List.length (filter (fun r => negb (is_valid r)) results))) ;;
     print ("Status: " ++ (if has_errors then "❌ FAILED" else "✅ PASSED")))
    (fun e =>
       logging ERROR ("Validation failed: " ++ exc_str e) ;;
       out_raise e).

End EntryPoint.

(** ** More vocabulary: reading a trace *)

(** The argument vectors of the subprocesses spawned, in order. *)
Definition subprocess_calls (t : Trace) : list (list string) :=
  flat_map (fun ev => match ev with EvSubprocess argv => [argv] | _ => [] end) t.

(** The URLs probed, in order. *)
Definition probed_urls (t : Trace) : list string :=
  flat_map (fun ev => match ev with EvHead url => [url] | _ => [] end) t.

(** The files opened for parsing, in order. *)
Definition loaded_files (t : Trace) : list string :=
  flat_map (fun ev => match ev with EvLoad path => [path] | _ => [] end) t.

(** A probe or an existence test. *)
Definition is_check (ev : Event) : bool :=
  match ev with EvHead _ | EvExists _ => true | _ => false end.

(** The only events the Module Source Checker may cause. *)
Definition checker_event (ev : Event) : Prop :=
  match ev with
  | EvHead _ | EvExists _ | EvLog WARNING _ => True
  | _ => False
  end.

(** The events [validate_file] may cause after it has opened its file. *)
Definition after_load_event (ev : Event) : Prop :=
  match ev with
  | EvHead _ | EvExists _ | EvLog _ _ => True
  | _ => False
  end.

(** The levels of the warning and error records of a trace, in order. *)
Definition alarm_levels (t : Trace) : list Level :=
  flat_map (fun ev => match ev with
                      | EvLog WARNING _ => [WARNING]
                      | EvLog ERROR _ => [ERROR]
                      | _ => []
                      end) t.

(** The alarm a runner owes for what its subprocess did: none after exit
    status 0, one warning after another status, one error when the spawn
    raised. *)
Definition alarm_for (w : World) (argv : list string) : list Level :=
  match subprocess_run w argv with
  | Returned cp => if Z.eqb (returncode cp) 0 then [] else [WARNING]
  | Raised _ => [ERROR]
  end.

(** The validator events among the outputs of [main], in order. *)
Definition pipeline_events (out : list Output) : Trace :=
  flat_map (fun o => match o with Pipeline ev => [ev] | _ => [] end) out.

(** The lines printed, in order. *)
Definition printed (out : list Output) : list string :=
  flat_map (fun o => match o with Stdout text => [text] | _ => [] end) out.

(** A probe that the checker survives: a status code or a
    [RequestException]. *)
Definition probe_handled (w : World) (url : string) : Prop :=
  match requests_head w url with
  | Returned _ => True
  | Raised e => is_RequestException e = true
  end.

(** A probe that reports the URL as unreachable. *)
Definition unreachable (w : World) (url : string) : bool :=
  match requests_head w url with
  | Returned code => (400 <=? code)%Z
  | Raised e => is_RequestException e
  end.

(** A source attribute the loop body can deal with: a false value, or a
    str that [urlparse] accepts and, when remote, whose probe is handled. *)
Definition source_checkable (w : World) (source : PyVal) : Prop :=
  truthy source = false \/
  exists s scheme,
    source = PStr s /\ urlparse_scheme w s = Returned scheme /\
    (scheme = "http" \/ scheme = "https" -> probe_handled w s).

Definition block_checkable (w : World) (block : string * PyVal) : Prop :=
  exists cfg,
    snd block = PDict cfg /\
    source_checkable w (match dict_get "source" cfg with
                        | Some source => source
                        | None => PNone
                        end).

(** The number of module blocks of a parsed file. *)
Definition module_count (parser_data : PyDict) : nat :=
  match dict_get "module" parser_data with
  | Some (PDict items) => List.length items
  | _ => 0
  end.

(** Two worlds that differ at most in what subprocesses do. *)
Definition same_files_and_network (w1 w2 : World) : Prop :=
  tree w1 = tree w2 /\
  listdir_error w1 = listdir_error w2 /\
  (forall path, load_file w1 path = load_file w2 path) /\
  (forall url, requests_head w1 url = requests_head w2 url) /\
  (forall path, path_exists w1 path = path_exists w2 path) /\
  (forall s, urlparse_scheme w1 s = urlparse_scheme w2 s).

(** * Properties *)

Section WithInterpreter.
Context {interp : Interpreter}.
(** ** Equations of the monad *)

Lemma bind_returned {A B} (m : Py A) (k : A -> Py B) a t :
  m = (Returned a, t) -> bind m k = (fst (k a), t ++ snd (k a)).
Proof. intros ->. reflexivity. Qed.

Lemma bind_raised {A B} (m : Py A) (k : A -> Py B) e t :
  m = (Raised e, t) -> bind m k = (Raised e, t).
Proof. intros ->. reflexivity. Qed.

Lemma bind_emit {B} ev (k : unit -> Py B) :
  bind (emit ev) k = (fst (k tt), ev :: snd (k tt)).
Proof. reflexivity. Qed.

Lemma bind_ret {A B} (a : A) (k : A -> Py B) : bind (ret a) k = k a.
Proof. unfold bind, ret. simpl. destruct (k a). reflexivity. Qed.

Lemma try_except_returned {A} (body : Py A) handler a t :
  body = (Returned a, t) -> try_except body handler = (Returned a, t).
Proof. intros ->. reflexivity. Qed.

Lemma try_except_raised {A} (body : Py A) handler e t :
  body = (Raised e, t) ->
  try_except body handler = (fst (handler e), t ++ snd (handler e)).
Proof. intros ->. reflexivity. Qed.

Lemma pair_eta {A B} (p : A * B) : p = (fst p, snd p).
Proof. destruct p. reflexivity. Qed.

(** A [try] whose handler always returns cannot raise. *)
Lemma try_except_total {A} (body : Py A) handler :
  (forall e, exists a, fst (handler e) = Returned a) ->
  exists a, fst (try_except body handler) = Returned a.
Proof.
  intros Hh. unfold try_except.
  destruct (fst body) as [a | e]; simpl.
  - now exists a.
  - apply Hh.
Qed.

(** ** The External Tool Runner *)

Lemma terraform_except_false what e :
  fst (terraform_except what e) = Returned false.
Proof.
  unfold terraform_except.
  destruct (is_CalledProcessError e); [reflexivity |].
  destruct (is_FileNotFoundError e); reflexivity.
Qed.

Ltac runner_cases w argv :=
  unfold exits_zero, run_subprocess, try_except, bind, lift, logger, emit; simpl;
  destruct (subprocess_run w argv) as [cp | e] eqn:Hrun; simpl;
  [ destruct (Z.eqb_spec (returncode cp) 0) as [Hz | Hz]; simpl;
    [ exists true; split; [reflexivity | split; [intros _; now exists cp | reflexivity]]
    | exists false; split; [reflexivity |
        split; [discriminate | intros (cp' & Hcp & Hrc); congruence]] ]
  | exists false; split;
    [ unfold terraform_except;
      destruct (is_CalledProcessError e); [reflexivity |];
      destruct (is_FileNotFoundError e); reflexivity
    | split; [discriminate | intros (cp' & Hcp & _); discriminate] ] ].

Lemma run_terraform_fmt_outcome w directory :
  exists b, fst (run_terraform_fmt w directory) = Returned b /\
            (b = true <-> exits_zero w ["terraform"; "fmt"; "-check"; directory]).
Proof.
  unfold run_terraform_fmt.
  runner_cases w ["terraform"; "fmt"; "-check"; directory].
Qed.

Lemma run_terraform_init_outcome w directory :
  exists b, fst (run_terraform_init w directory) = Returned b /\
            (b = true <-> exits_zero w ["terraform"; "init"; directory]).
Proof.
  unfold run_terraform_init.
  runner_cases w ["terraform"; "init"; directory].
Qed.

Lemma run_terraform_validate_outcome w directory :
  exists b, fst (run_terraform_validate w directory) = Returned b /\
            (b = true <-> exits_zero w ["terraform"; "validate"; directory]).
Proof.
  unfold run_terraform_validate.
  runner_cases w ["terraform"; "validate"; directory].
Qed.

Lemma run_terraform_plan_outcome w directory :
  exists b, fst (run_terraform_plan w directory) = Returned b /\
            (b = true <-> exits_zero w ["terraform"; "plan"; directory]).
Proof.
  unfold run_terraform_plan.
  runner_cases w ["terraform"; "plan"; directory].
Qed.

(** C6: each of the four external-tool operations returns a boolean and never
    raises; the boolean is [true] exactly when the subprocess was spawned and
    exited with status 0, so a missing binary, a non-zero exit status and any
    other spawn failure all give [false]. *)
Theorem external_tool_runner_maps_failures_to_false (w : World) (directory : string) :
  (exists b, fst (run_terraform_fmt w directory) = Returned b /\
             (b = true <-> exits_zero w ["terraform"; "fmt"; "-check"; directory])) /\
  (exists b, fst (run_terraform_init w directory) = Returned b /\
             (b = true <-> exits_zero w ["terraform"; "init"; directory])) /\
  (exists b, fst (run_terraform_validate w directory) = Returned b /\
             (b = true <-> exits_zero w ["terraform"; "validate"; directory])) /\
  (exists b, fst (run_terraform_plan w directory) = Returned b /\
             (b = true <-> exits_zero w ["terraform"; "plan"; directory])).
Proof.
  split; [| split; [| split]].
  - apply run_terraform_fmt_outcome.
  - apply run_terraform_init_outcome.
  - apply run_terraform_validate_outcome.
  - apply run_terraform_plan_outcome.
Qed.

(** ** The File Validator *)

Lemma check_url_reachability_nothing w parser_data :
  check_url_reachability w parser_data = (Returned [], []).
Proof. reflexivity. Qed.

Lemma parse_terraform_file_returned w file_path parser_data :
  load_file w file_path = Returned parser_data ->
  parse_terraform_file w file_path = (Returned parser_data, [EvLoad file_path]).
Proof.
  intros H. unfold parse_terraform_file, try_except, bind, lift, emit. simpl.
  rewrite H. reflexivity.
Qed.

Lemma parse_terraform_file_raised w file_path e :
  load_file w file_path = Raised e ->
  parse_terraform_file w file_path =
  (Raised e,
   [EvLoad file_path;
    EvLog ERROR ("Error parsing file " ++ file_path ++ ": " ++ exc_str e)]).
Proof.
  intros H. unfold parse_terraform_file, try_except, bind, lift, emit. simpl.
  rewrite H. reflexivity.
Qed.

Lemma validate_file_parsed w directory file_path parser_data l t :
  load_file w file_path = Returned parser_data ->
  check_module_sources w directory parser_data = (Returned l, t) ->
  validate_file w directory file_path =
  (Returned (mkValidationResult file_path (module_issues l) (negb (nonempty l))),
   EvLog INFO ("Validating file: " ++ file_path) :: EvLoad file_path :: t).
Proof.
  intros Hload Hcheck. unfold validate_file.
  rewrite (parse_terraform_file_returned _ _ _ Hload).
  unfold logger. rewrite bind_emit.
  unfold try_except, bind. simpl. rewrite Hcheck. simpl.
  unfold module_issues. destruct l; simpl; rewrite ?app_nil_r; reflexivity.
Qed.

Lemma validate_file_checker_raised w directory file_path parser_data e t :
  load_file w file_path = Returned parser_data ->
  check_module_sources w directory parser_data = (Raised e, t) ->
  validate_file w directory file_path =
  (Returned (failure_result file_path e),
   EvLog INFO ("Validating file: " ++ file_path) :: EvLoad file_path :: t ++
   [EvLog ERROR ("Error validating file " ++ file_path ++ ": " ++ exc_str e)]).
Proof.
  intros Hload Hcheck. unfold validate_file.
  rewrite (parse_terraform_file_returned _ _ _ Hload).
  unfold logger. rewrite bind_emit.
  unfold try_except, bind. simpl. rewrite Hcheck. reflexivity.
Qed.

Lemma validate_file_parse_raised w directory file_path e :
  load_file w file_path = Raised e ->
  validate_file w directory file_path =
  (Returned (failure_result file_path e),
   [EvLog INFO ("Validating file: " ++ file_path);
    EvLoad file_path;
    EvLog ERROR ("Error parsing file " ++ file_path ++ ": " ++ exc_str e);
    EvLog ERROR ("Error validating file " ++ file_path ++ ": " ++ exc_str e)]).
Proof.
  intros Hload. unfold validate_file.
  rewrite (parse_terraform_file_raised _ _ _ Hload).
  reflexivity.
Qed.

(** [validate_file] returns a result whatever happens inside it. *)
Lemma validate_file_returns w directory file_path :
  exists r, fst (validate_file w directory file_path) = Returned r /\
            (is_valid r = true <-> issues r = []).
Proof.
  destruct (load_file w file_path) as [pd | e] eqn:Hload.
  - destruct (check_module_sources w directory pd) as [[l | e] t] eqn:Hcheck.
    + rewrite (validate_file_parsed _ _ _ _ _ _ Hload Hcheck). simpl.
      eexists; split; [reflexivity |]. simpl.
      unfold module_issues. destruct l; simpl; split; congruence.
    + rewrite (validate_file_checker_raised _ _ _ _ _ _ Hload Hcheck). simpl.
      eexists; split; [reflexivity |]. simpl. split; discriminate.
  - rewrite (validate_file_parse_raised _ directory _ _ Hload). simpl.
    eexists; split; [reflexivity |]. simpl. split; discriminate.
Qed.

(** C1: every ValidationResult built by [validate_file], on the path where
    the file parses as on the path where an exception is caught, has
    [is_valid] true exactly when its [issues] list is empty; and
    [validate_file] always builds one. *)
Theorem validate_file_is_valid_iff_no_issues (w : World) (directory file_path : string) :
  exists r t, validate_file w directory file_path = (Returned r, t) /\
              (is_valid r = true <-> issues r = []).
Proof.
  destruct (validate_file_returns w directory file_path) as (r & Hr & Hiff).
  exists r, (snd (validate_file w directory file_path)). split; [| exact Hiff].
  rewrite <- Hr. apply pair_eta.
Qed.

(** The per-file loop of [validate_directory] steps over one file. *)
Lemma for_files_step w directory root file rest results r :
  is_tf file = true ->
  fst (validate_file w directory (os_path_join root file)) = Returned r ->
  fst (for_files w directory root (file :: rest) results) =
  fst (for_files w directory root rest (results ++ [r])).
Proof.
  intros Htf Hr. simpl. rewrite Htf.
  unfold bind at 1. unfold bind at 1. rewrite Hr. simpl. reflexivity.
Qed.



(** ** The Directory Validator *)

Lemma bind_fst_returned {A B} (m : Py A) (k : A -> Py B) a :
  fst m = Returned a -> fst (bind m k) = fst (k a).
Proof. intros H. unfold bind. rewrite H. reflexivity. Qed.

Lemma warn_unless_returns ok msg : fst (warn_unless ok msg) = Returned tt.
Proof. destruct ok; reflexivity. Qed.

Lemma filter_none {A} (p : A -> bool) (l : list A) :
  (forall x, In x l -> p x = false) -> filter p l = [].
Proof.
  induction l as [| x l IH]; intros H; simpl; [reflexivity |].
  rewrite (H x (or_introl eq_refl)). apply IH. intros y Hy. apply H. now right.
Qed.

Lemma validate_directory_gate_closed w directory :
  listdir_error w = None ->
  filter is_tf (listdir_names (tree w)) = [] ->
  validate_directory w directory =
  (Returned [],
   [EvListdir directory;
    EvLog WARNING ("No Terraform files found in " ++ directory)]).
Proof.
  intros Hlist Hnone. unfold validate_directory, os_listdir. rewrite Hlist.
  rewrite (bind_returned _ _ (listdir_names (tree w)) [EvListdir directory])
    by reflexivity.
  cbv beta. rewrite Hnone. reflexivity.
Qed.

(** X18: when the target directory can be listed and no entry of the
    listing, file or sub-directory, has a name ending in [.tf],
    [validate_directory] returns the empty list after listing the directory
    and logging one warning: no subprocess is spawned and no reachability
    probe is sent, whatever the sub-directories contain. *)
Theorem validate_directory_without_tf_entries (w : World) (directory : string) :
  listdir_error w = None ->
  (forall name, In name (listdir_names (tree w)) -> is_tf name = false) ->
  exists trace,
    validate_directory w directory = (Returned [], trace) /\
    trace = [EvListdir directory;
             EvLog WARNING ("No Terraform files found in " ++ directory)] /\
    (forall argv, ~ In (EvSubprocess argv) trace) /\
    (forall url, ~ In (EvHead url) trace).
Proof.
  intros Hlist Hnone. eexists. split; [| split; [reflexivity |]].
  - apply (validate_directory_gate_closed _ _ Hlist), filter_none, Hnone.
  - split; intros x [H | [H | []]]; discriminate.
Qed.


Lemma for_files_results w directory root files :
  forall results,
  exists rs,
    fst (for_files w directory root files results) = Returned (results ++ rs) /\
    Forall2 (validated_as w directory)
            (map (os_path_join root) (filter is_tf files)) rs.
Proof.
  induction files as [| file rest IH]; intros results.
  - exists []. simpl. rewrite app_nil_r. split; [reflexivity | constructor].
  - destruct (is_tf file) eqn:Htf.
    + destruct (validate_file_returns w directory (os_path_join root file))
        as (r & Hr & _).
      destruct (IH (results ++ [r])) as (rs & Hrs & Hall).
      exists (r :: rs). split.
      * rewrite (for_files_step _ _ _ _ _ _ _ Htf Hr), Hrs, <- app_assoc.
        reflexivity.
      * simpl. rewrite Htf. simpl. constructor; assumption.
    + destruct (IH results) as (rs & Hrs & Hall).
      exists rs. split.
      * simpl. rewrite Htf. rewrite bind_ret. exact Hrs.
      * simpl. rewrite Htf. exact Hall.
Qed.

Lemma for_walk_results w directory triples :
  forall results,
  exists rs,
    fst (for_walk w directory triples results) = Returned (results ++ rs) /\
    Forall2 (validated_as w directory)
            (flat_map (fun '(root, _, files) =>
                         map (os_path_join root) (filter is_tf files)) triples)
            rs.
Proof.
  induction triples as [| [[root dirs] files] rest IH]; intros results.
  - exists []. simpl. rewrite app_nil_r. split; [reflexivity | constructor].
  - destruct (for_files_results w directory root files results) as (rs1 & H1 & A1).
    destruct (IH (results ++ rs1)) as (rs2 & H2 & A2).
    exists (rs1 ++ rs2). split.
    + simpl. rewrite (bind_fst_returned _ _ _ H1), H2, <- app_assoc. reflexivity.
    + simpl. apply Forall2_app; assumption.
Qed.

Lemma validate_directory_gate_open w directory :
  listdir_error w = None ->
  existsb is_tf (listdir_names (tree w)) = true ->
  fst (validate_directory w directory) =
  fst (for_walk w directory (walk_triples directory (tree w)) []).
Proof.
  intros Hlist Hsome. unfold validate_directory, os_listdir. rewrite Hlist.
  rewrite (bind_returned _ _ (listdir_names (tree w)) [EvListdir directory])
    by reflexivity.
  cbv beta.
  assert (Hgate : negb (nonempty (filter is_tf (listdir_names (tree w)))) = false).
  { apply existsb_exists in Hsome. destruct Hsome as (name & Hin & Htf).
    destruct (filter is_tf (listdir_names (tree w))) eqn:Hf; [| reflexivity].
    assert (Hin' : In name (filter is_tf (listdir_names (tree w))))
      by (apply filter_In; split; assumption).
    rewrite Hf in Hin'. destruct Hin'. }
  rewrite Hgate. cbv iota. unfold fst at 1.
  destruct (run_terraform_fmt_outcome w directory) as (b1 & Hb1 & _).
  rewrite (bind_fst_returned _ _ _ Hb1).
  rewrite (bind_fst_returned _ _ _ (warn_unless_returns _ _)).
  destruct (run_terraform_init_outcome w directory) as (b2 & Hb2 & _).
  rewrite (bind_fst_returned _ _ _ Hb2).
  rewrite (bind_fst_returned _ _ _ (warn_unless_returns _ _)).
  destruct (run_terraform_validate_outcome w directory) as (b3 & Hb3 & _).
  rewrite (bind_fst_returned _ _ _ Hb3).
  rewrite (bind_fst_returned _ _ _ (warn_unless_returns _ _)).
  destruct (run_terraform_plan_outcome w directory) as (b4 & Hb4 & _).
  rewrite (bind_fst_returned _ _ _ Hb4).
  rewrite (bind_fst_returned _ _ _ (warn_unless_returns _ _)).
  unfold os_walk.
  rewrite (bind_fst_returned _ _ (walk_triples directory (tree w))) by reflexivity.
  reflexivity.
Qed.






(** ** The Module Source Checker *)

Ltac run_py :=
  unfold check_module, py_get, py_items, urlparse, probe, os_path_exists,
    try_except, bind, lift, ret, raise, emit, logger, map_py; simpl.

(** The loop body only appends to the list it is given. *)
Lemma check_module_acc w directory name config acc :
  check_module w directory name config acc =
  map_py (app acc) (check_module w directory name config []).
Proof.
  destruct config as [| b | z | s | l | cfg]; try reflexivity.
  run_py.
  destruct (dict_get "source" cfg) as [source |]; simpl;
    [| now rewrite app_nil_r].
  destruct (truthy source); simpl; [| now rewrite app_nil_r].
  destruct source as [| b | z | s | l | d]; try reflexivity. simpl.
  destruct (urlparse_scheme w s) as [scheme | e]; simpl; [| reflexivity].
  destruct (String.eqb scheme "http" || String.eqb scheme "https"); simpl.
  - destruct (requests_head w s) as [code | e]; simpl.
    + destruct (400 <=? code)%Z; simpl; [reflexivity | now rewrite app_nil_r].
    + destruct (is_RequestException e); reflexivity.
  - destruct (String.eqb scheme ""); simpl; [| now rewrite app_nil_r].
    destruct (path_exists w (os_path_join directory s)); simpl;
      [now rewrite app_nil_r | reflexivity].
Qed.

Lemma for_modules_acc w directory items :
  forall acc,
  for_modules w directory items acc =
  map_py (app acc) (for_modules w directory items []).
Proof.
  induction items as [| [name config] rest IH]; intros acc.
  - unfold map_py. simpl. now rewrite app_nil_r.
  - simpl. rewrite (check_module_acc _ _ _ _ acc).
    destruct (check_module w directory name config []) as [[l | e] t];
      [| reflexivity].
    unfold map_py at 1. simpl.
    rewrite (bind_returned _ _ (acc ++ l) t) by reflexivity.
    rewrite (bind_returned _ _ l t) by reflexivity.
    rewrite (IH (acc ++ l)), (IH l).
    unfold map_py. simpl.
    destruct (fst (for_modules w directory rest [])); simpl;
      [now rewrite app_assoc | reflexivity].
Qed.

Lemma for_modules_app w directory pre post :
  forall acc l t,
  for_modules w directory pre acc = (Returned l, t) ->
  for_modules w directory (pre ++ post) acc =
  (fst (for_modules w directory post l), t ++ snd (for_modules w directory post l)).
Proof.
  induction pre as [| [name config] pre IH]; intros acc l t H.
  - simpl in *. injection H as <- <-. simpl. apply pair_eta.
  - simpl in *.
    destruct (check_module w directory name config acc) as [[l1 | e1] t1].
    + rewrite (bind_returned _ _ l1 t1) in H by reflexivity.
      rewrite (bind_returned _ _ l1 t1) by reflexivity.
      destruct (for_modules w directory pre l1) as [[l2 | e2] t2] eqn:Hpre;
        simpl in H; [| discriminate].
      injection H as <- <-.
      rewrite (IH l1 l2 t2 Hpre). simpl. now rewrite app_assoc.
    + discriminate.
Qed.

(** The list returned for a "module" section is the concatenation, in
    declaration order, of what each block contributes. *)
Lemma check_module_sources_split w directory parser_data pre name config post
      l_pre t_pre l t l_post t_post :
  dict_get "module" parser_data = Some (PDict (pre ++ (name, config) :: post)) ->
  for_modules w directory pre [] = (Returned l_pre, t_pre) ->
  check_module w directory name config [] = (Returned l, t) ->
  for_modules w directory post [] = (Returned l_post, t_post) ->
  check_module_sources w directory parser_data =
  (Returned (l_pre ++ l ++ l_post), t_pre ++ t ++ t_post).
Proof.
  intros Hmod Hpre Hone Hpost.
  unfold check_module_sources. rewrite Hmod. unfold py_items. rewrite bind_ret.
  rewrite (for_modules_app _ _ _ _ _ _ _ Hpre). simpl.
  rewrite (check_module_acc _ _ _ _ l_pre), Hone. unfold map_py at 1 2. simpl.
  rewrite (for_modules_acc _ _ _ (l_pre ++ l)), Hpost. unfold map_py. simpl.
  now rewrite <- !app_assoc.
Qed.

(** What one module block contributes, case by case. *)

Lemma check_module_remote_status w directory name cfg source scheme code :
  dict_get "source" cfg = Some (PStr source) -> source <> "" ->
  urlparse_scheme w source = Returned scheme ->
  scheme = "http" \/ scheme = "https" ->
  requests_head w source = Returned code ->
  check_module w directory name (PDict cfg) [] =
  (Returned (if (400 <=? code)%Z then [unreachable_source_msg name source] else []),
   [EvHead source]).
Proof.
  intros Hsrc Hne Hurl Hscheme Hhead. run_py. rewrite Hsrc. simpl.
  destruct (String.eqb_spec source "") as [-> | _]; [congruence |]. simpl.
  rewrite Hurl. simpl.
  assert (Hs : String.eqb scheme "http" || String.eqb scheme "https" = true)
    by (destruct Hscheme as [-> | ->]; reflexivity).
  rewrite Hs. simpl. rewrite Hhead. simpl.
  destruct (400 <=? code)%Z; reflexivity.
Qed.

Lemma check_module_remote_error w directory name cfg source scheme e :
  dict_get "source" cfg = Some (PStr source) -> source <> "" ->
  urlparse_scheme w source = Returned scheme ->
  scheme = "http" \/ scheme = "https" ->
  requests_head w source = Raised e -> is_RequestException e = true ->
  check_module w directory name (PDict cfg) [] =
  (Returned [unreachable_source_msg name source],
   [EvHead source;
    EvLog WARNING ("Error reaching module source URL " ++ source ++ ": " ++ exc_str e)]).
Proof.
  intros Hsrc Hne Hurl Hscheme Hhead Hreq. run_py. rewrite Hsrc. simpl.
  destruct (String.eqb_spec source "") as [-> | _]; [congruence |]. simpl.
  rewrite Hurl. simpl.
  assert (Hs : String.eqb scheme "http" || String.eqb scheme "https" = true)
    by (destruct Hscheme as [-> | ->]; reflexivity).
  rewrite Hs. simpl. rewrite Hhead. simpl. rewrite Hreq. reflexivity.
Qed.

Lemma check_module_local w directory name cfg source :
  dict_get "source" cfg = Some (PStr source) -> source <> "" ->
  urlparse_scheme w source = Returned "" ->
  check_module w directory name (PDict cfg) [] =
  (Returned (if path_exists w (os_path_join directory source) then []
             else [missing_local_msg name source]),
   [EvExists (os_path_join directory source)]).
Proof.
  intros Hsrc Hne Hurl. run_py. rewrite Hsrc. simpl.
  destruct (String.eqb_spec source "") as [-> | _]; [congruence |]. simpl.
  rewrite Hurl. simpl.
  destruct (path_exists w (os_path_join directory source)); reflexivity.
Qed.

Lemma check_module_other_scheme w directory name cfg source scheme :
  dict_get "source" cfg = Some (PStr source) -> source <> "" ->
  urlparse_scheme w source = Returned scheme ->
  scheme <> "" -> scheme <> "http" -> scheme <> "https" ->
  check_module w directory name (PDict cfg) [] = (Returned [], []).
Proof.
  intros Hsrc Hne Hurl H0 H1 H2. run_py. rewrite Hsrc. simpl.
  destruct (String.eqb_spec source "") as [-> | _]; [congruence |]. simpl.
  rewrite Hurl. simpl.
  destruct (String.eqb_spec scheme "http"); [congruence |].
  destruct (String.eqb_spec scheme "https"); [congruence |].
  destruct (String.eqb_spec scheme ""); [congruence |]. reflexivity.
Qed.

Lemma check_module_no_source w directory name cfg :
  dict_get "source" cfg = None ->
  check_module w directory name (PDict cfg) [] = (Returned [], []).
Proof. intros Hsrc. run_py. rewrite Hsrc. reflexivity. Qed.

Lemma check_module_falsy_source w directory name cfg source :
  dict_get "source" cfg = Some source -> truthy source = false ->
  check_module w directory name (PDict cfg) [] = (Returned [], []).
Proof. intros Hsrc Hf. run_py. rewrite Hsrc. simpl. rewrite Hf. reflexivity. Qed.

(** The claims about one module block are stated for a block [(name, cfg)]
    anywhere in the "module" section, between blocks [pre] and [post] whose
    own checks return [l_pre] and [l_post]. *)
Section OneModuleBlock.

Variables (w : World) (directory : string) (parser_data : PyDict).
Variables (pre post : list (string * PyVal)) (name : string) (cfg : PyDict).
Variables (l_pre l_post : list string) (t_pre t_post : Trace).

Hypothesis module_section :
  dict_get "module" parser_data = Some (PDict (pre ++ (name, PDict cfg) :: post)).
Hypothesis blocks_before : for_modules w directory pre [] = (Returned l_pre, t_pre).
Hypothesis blocks_after : for_modules w directory post [] = (Returned l_post, t_post).

Lemma block_contribution l t :
  check_module w directory name (PDict cfg) [] = (Returned l, t) ->
  check_module_sources w directory parser_data =
  (Returned (l_pre ++ l ++ l_post), t_pre ++ t ++ t_post).
Proof.
  intros H.
  exact (check_module_sources_split _ _ _ _ _ _ _ _ _ _ _ _ _
           module_section blocks_before H blocks_after).
Qed.

(** C2, amended: provided the checks of the other module blocks return, for
    a module block whose source has scheme http or https, a probe that
    answers a status of 400 or more, or that raises a RequestException,
    makes the block contribute exactly one entry
    "Module <name>: Unreachable source URL <source>" to the list returned by
    [check_module_sources], at the block's position; the ValidationResult of
    the file then holds a single issue, the text "Invalid or unreachable
    module sources found: " followed by the printed form of that whole list,
    and is not valid.  A probe that answers a status below 400 makes the
    block contribute nothing. *)
Theorem unreachable_remote_source_reported_in_summary
    (file_path source scheme : string) :
  load_file w file_path = Returned parser_data ->
  dict_get "source" cfg = Some (PStr source) -> source <> "" ->
  urlparse_scheme w source = Returned scheme ->
  scheme = "http" \/ scheme = "https" ->
  ((exists code, requests_head w source = Returned code /\ (400 <= code)%Z) \/
   (exists e, requests_head w source = Raised e /\ is_RequestException e = true) ->
   let found := l_pre ++ [unreachable_source_msg name source] ++ l_post in
   fst (check_module_sources w directory parser_data) = Returned found /\
   fst (validate_file w directory file_path) =
   Returned (mkValidationResult file_path
     [("Invalid or unreachable module sources found: " ++ repr_list found)%string]
     false)) /\
  (forall code, requests_head w source = Returned code -> (code < 400)%Z ->
   fst (check_module_sources w directory parser_data) = Returned (l_pre ++ l_post)).
Proof.
  intros Hload Hsrc Hne Hurl Hscheme. split.
  - intros Hprobe found.
    assert (Hcheck : exists t, check_module_sources w directory parser_data =
                               (Returned found, t)).
    { destruct Hprobe as [(code & Hhead & Hcode) | (e & Hhead & Hreq)].
      - eexists. apply block_contribution.
        rewrite (check_module_remote_status _ _ _ _ _ _ _ Hsrc Hne Hurl Hscheme Hhead).
        apply Z.leb_le in Hcode. rewrite Hcode. reflexivity.
      - eexists. apply block_contribution.
        apply (check_module_remote_error _ _ _ _ _ _ _ Hsrc Hne Hurl Hscheme Hhead Hreq). }
    destruct Hcheck as (t & Hcheck). split.
    + rewrite Hcheck. reflexivity.
    + rewrite (validate_file_parsed _ _ _ _ _ _ Hload Hcheck). simpl.
      unfold module_issues, found.
      destruct l_pre; reflexivity.
  - intros code Hhead Hcode.
    rewrite (block_contribution [] [EvHead source]); [reflexivity |].
    rewrite (check_module_remote_status _ _ _ _ _ _ _ Hsrc Hne Hurl Hscheme Hhead).
    apply Z.leb_gt in Hcode. rewrite Hcode. reflexivity.
Qed.

(** C5, amended: provided the checks of the other module blocks return, a
    module block whose source has an empty scheme has the path
    [os.path.join(directory, source)] decide its contribution: when that
    path is missing the block contributes the entry "Module <name>: Local
    source path does not exist <source>", when it exists the block
    contributes nothing; for a non-empty source the path is tested with one
    [os.path.exists] call.  (The directory under validation is present, as
    the constructor checked.)  A block without a source attribute contributes
    nothing and is not checked; a source whose scheme is neither empty nor
    http nor https contributes nothing and triggers neither an existence
    test nor a probe. *)
Theorem local_module_source_checked_on_disk :
  (forall source,
      dict_get "source" cfg = Some (PStr source) ->
      urlparse_scheme w source = Returned "" ->
      path_exists w (os_path_join directory "") = true ->
      let local_path := os_path_join directory source in
      (path_exists w local_path = false ->
       fst (check_module_sources w directory parser_data) =
       Returned (l_pre ++ [missing_local_msg name source] ++ l_post)) /\
      (path_exists w local_path = true ->
       fst (check_module_sources w directory parser_data) =
       Returned (l_pre ++ l_post)) /\
      (source <> "" ->
       snd (check_module_sources w directory parser_data) =
       t_pre ++ [EvExists local_path] ++ t_post)) /\
  (dict_get "source" cfg = None ->
   check_module_sources w directory parser_data =
   (Returned (l_pre ++ l_post), t_pre ++ t_post)) /\
  (forall source scheme,
      dict_get "source" cfg = Some (PStr source) ->
      urlparse_scheme w source = Returned scheme ->
      scheme <> "" -> scheme <> "http" -> scheme <> "https" ->
      check_module_sources w directory parser_data =
      (Returned (l_pre ++ l_post), t_pre ++ t_post)).
Proof.
  split; [| split].
  - intros source Hsrc Hurl Hdir local_path.
    destruct (String.eqb_spec source "") as [-> | Hne].
    + pose proof (block_contribution _ _
        (check_module_falsy_source w directory name cfg (PStr "") Hsrc eq_refl)) as H.
      rewrite H. unfold local_path. split; [congruence | split; [reflexivity |]].
      intros Habs. now elim Habs.
    + pose proof (check_module_local w directory name cfg source Hsrc Hne Hurl) as H.
      fold local_path in H.
      split; [| split]; intros Hex.
      * rewrite Hex in H. now rewrite (block_contribution _ _ H).
      * rewrite Hex in H. now rewrite (block_contribution _ _ H).
      * now rewrite (block_contribution _ _ H).
  - intros Hsrc.
    exact (block_contribution _ _ (check_module_no_source w directory name cfg Hsrc)).
  - intros source scheme Hsrc Hurl H0 H1 H2.
    destruct (String.eqb_spec source "") as [-> | Hne].
    + exact (block_contribution _ _
        (check_module_falsy_source w directory name cfg (PStr "") Hsrc eq_refl)).
    + exact (block_contribution _ _
               (check_module_other_scheme w directory name cfg source scheme
                  Hsrc Hne Hurl H0 H1 H2)).
Qed.

(** C10: a module block whose source attribute is the empty string
    contributes no issue and causes no existence test (and no probe): the
    list and the trace of [check_module_sources] are those of the other
    blocks alone, whatever [urlparse] and the file system would have
    answered. *)
Theorem empty_source_string_is_skipped :
  dict_get "source" cfg = Some (PStr "") ->
  check_module w directory name (PDict cfg) [] = (Returned [], []) /\
  check_module_sources w directory parser_data =
  (Returned (l_pre ++ l_post), t_pre ++ t_post).
Proof.
  intros Hsrc.
  assert (H : check_module w directory name (PDict cfg) [] = (Returned [], []))
    by exact (check_module_falsy_source w directory name cfg (PStr "") Hsrc eq_refl).
  split; [exact H | exact (block_contribution _ _ H)].
Qed.

End OneModuleBlock.


(** ** The URL Extractor *)


(** C8, amended: given a ParsedConfig, the URL Extractor returns the empty
    sequence whatever the configuration holds, without walking it; the URL
    reachability check therefore sends no probe and reports no URL. *)
Theorem extract_urls_returns_nothing (w : World) (parser_data : PyDict) :
  extract_urls parser_data = (Returned [], []) /\
  check_url_reachability w parser_data = (Returned [], []).
Proof. split; reflexivity. Qed.

(** ** Determinism of the per-file validation *)

Lemma check_module_same w1 w2 directory name config acc :
  (forall url, requests_head w1 url = requests_head w2 url) ->
  (forall path, path_exists w1 path = path_exists w2 path) ->
  (forall s, urlparse_scheme w1 s = urlparse_scheme w2 s) ->
  check_module w1 directory name config acc =
  check_module w2 directory name config acc.
Proof.
  intros Hhead Hex Hurl.
  destruct config as [| b | z | s | l | cfg]; try reflexivity.
  run_py.
  destruct (dict_get "source" cfg) as [source |]; simpl; [| reflexivity].
  destruct (truthy source); simpl; [| reflexivity].
  destruct source as [| b | z | s | l | d]; try reflexivity. simpl.
  rewrite (Hurl s), (Hhead s), (Hex (os_path_join directory s)). reflexivity.
Qed.

Lemma for_modules_same w1 w2 directory items :
  (forall url, requests_head w1 url = requests_head w2 url) ->
  (forall path, path_exists w1 path = path_exists w2 path) ->
  (forall s, urlparse_scheme w1 s = urlparse_scheme w2 s) ->
  forall acc,
  for_modules w1 directory items acc = for_modules w2 directory items acc.
Proof.
  intros Hhead Hex Hurl.
  induction items as [| [name config] rest IH]; intros acc; [reflexivity |].
  simpl. rewrite (check_module_same w1 w2 _ _ _ _ Hhead Hex Hurl).
  unfold bind. destruct (fst (check_module w2 directory name config acc));
    [rewrite IH |]; reflexivity.
Qed.

Lemma check_module_sources_same w1 w2 directory parser_data :
  (forall url, requests_head w1 url = requests_head w2 url) ->
  (forall path, path_exists w1 path = path_exists w2 path) ->
  (forall s, urlparse_scheme w1 s = urlparse_scheme w2 s) ->
  check_module_sources w1 directory parser_data =
  check_module_sources w2 directory parser_data.
Proof.
  intros Hhead Hex Hurl. unfold check_module_sources.
  destruct (match dict_get "module" parser_data with
            | Some m => m | None => PDict [] end); try reflexivity.
  unfold py_items. rewrite !bind_ret.
  apply for_modules_same; assumption.
Qed.

(** C9: two runs of [validate_file] on the same file that receive the same
    parse outcome, the same probe responses and the same file-system answers
    return the same ValidationResult, issue for issue and in the same order,
    after the same sequence of external calls and log records, the module
    blocks being visited in the order of the parsed dict in both runs. *)
Theorem validate_file_deterministic (w1 w2 : World) (directory file_path : string) :
  same_answers w1 w2 file_path ->
  validate_file w1 directory file_path = validate_file w2 directory file_path.
Proof.
  intros (Hload & Hhead & Hex & Hurl).
  destruct (load_file w2 file_path) as [pd | e] eqn:Hload2.
  - pose proof (check_module_sources_same w1 w2 directory pd Hhead Hex Hurl) as Hsame.
    destruct (check_module_sources w2 directory pd) as [[l | e] t] eqn:Hcheck.
    + rewrite (validate_file_parsed _ _ _ _ _ _ Hload Hsame),
              (validate_file_parsed _ _ _ _ _ _ Hload2 Hcheck). reflexivity.
    + rewrite (validate_file_checker_raised _ _ _ _ _ _ Hload Hsame),
              (validate_file_checker_raised _ _ _ _ _ _ Hload2 Hcheck). reflexivity.
  - rewrite (validate_file_parse_raised _ directory _ _ Hload),
            (validate_file_parse_raised _ directory _ _ Hload2). reflexivity.
Qed.


(** * Further properties of the code *)

(** ** More equations of the monad *)

Lemma bind_snd {A B} (m : Py A) (k : A -> Py B) :
  snd (bind m k) =
  match fst m with
  | Returned a => snd m ++ snd (k a)
  | Raised _ => snd m
  end.
Proof. unfold bind. destruct (fst m); reflexivity. Qed.

Lemma bind_fst_raised {A B} (m : Py A) (k : A -> Py B) e :
  fst m = Raised e -> fst (bind m k) = Raised e.
Proof. intros H. unfold bind. rewrite H. reflexivity. Qed.

Lemma bind_fst_inv {A B} (m : Py A) (k : A -> Py B) b :
  fst (bind m k) = Returned b ->
  exists a, fst m = Returned a /\ fst (k a) = Returned b.
Proof.
  unfold bind. destruct (fst m) as [a | e]; simpl; intros H.
  - now exists a.
  - discriminate.
Qed.

(** ** The Module Source Checker: when it raises, how much it reports, what
    it touches *)

Lemma check_module_returns_iff w directory name config acc :
  (exists l, fst (check_module w directory name config acc) = Returned l) <->
  block_checkable w (name, config).
Proof.
  unfold block_checkable, source_checkable, probe_handled. simpl. split.
  - intros (l & Hl).
    destruct config as [| b | z | s | l0 | cfg]; try discriminate Hl.
    exists cfg. split; [reflexivity |].
    revert Hl. run_py.
    destruct (dict_get "source" cfg) as [source |]; simpl; [| now left].
    destruct (truthy source) eqn:Ht; simpl; [| now left].
    destruct source as [| b | z | s | l0 | d]; try discriminate. simpl.
    intros Hl. right. exists s.
    destruct (urlparse_scheme w s) as [scheme | e]; simpl in Hl; [| discriminate].
    exists scheme. split; [reflexivity | split; [reflexivity |]].
    intros Hscheme.
    assert (Hs : String.eqb scheme "http" || String.eqb scheme "https" = true)
      by (destruct Hscheme as [-> | ->]; reflexivity).
    rewrite Hs in Hl. simpl in Hl.
    destruct (requests_head w s) as [code | e]; [exact I |].
    simpl in Hl. destruct (is_RequestException e); [reflexivity | discriminate].
  - intros (cfg & -> & Hsrc). run_py.
    destruct Hsrc as [Hfalse | (s & scheme & Hs & Hurl & Hprobe)].
    + rewrite Hfalse. simpl. eauto.
    + rewrite Hs. simpl.
      destruct (negb (String.eqb s "")); simpl; [| eauto].
      rewrite Hurl. simpl.
      destruct (String.eqb scheme "http" || String.eqb scheme "https") eqn:Hsch; simpl.
      * assert (Hor : scheme = "http" \/ scheme = "https").
        { apply orb_true_iff in Hsch. destruct Hsch as [H | H];
            apply String.eqb_eq in H; auto. }
        specialize (Hprobe Hor).
        destruct (requests_head w s) as [code | e]; simpl.
        -- destruct (400 <=? code)%Z; simpl; eauto.
        -- rewrite Hprobe. simpl. eauto.
      * destruct (String.eqb scheme ""); simpl; [| eauto].
        destruct (path_exists w (os_path_join directory s)); simpl; eauto.
Qed.

Lemma for_modules_returns_iff w directory items :
  forall acc,
  (exists l, fst (for_modules w directory items acc) = Returned l) <->
  Forall (block_checkable w) items.
Proof.
  induction items as [| [name config] rest IH]; intros acc.
  - simpl. split; [constructor | eauto].
  - simpl. split.
    + intros (l & Hl). apply bind_fst_inv in Hl. destruct Hl as (acc' & H1 & H2).
      constructor.
      * apply (check_module_returns_iff w directory name config acc). eauto.
      * apply (IH acc'). eauto.
    + intros Hall. inversion Hall as [| b bs Hb Hbs]; subst.
      apply (check_module_returns_iff w directory name config acc) in Hb.
      destruct Hb as (acc' & Hacc').
      destruct (proj2 (IH acc') Hbs) as (l & Hl).
      exists l. now rewrite (bind_fst_returned _ _ _ Hacc').
Qed.

(** X1: over a "module" section that is a mapping, [check_module_sources]
    returns a list exactly when every block is a mapping whose source is
    absent, false, or a str that [urlparse] accepts and, for the schemes
    http and https, whose probe answers or raises a RequestException; in
    every other case it raises. *)
Theorem check_module_sources_returns_iff_checkable
    (w : World) (directory : string) (parser_data : PyDict)
    (items : list (string * PyVal)) :
  dict_get "module" parser_data = Some (PDict items) ->
  ((exists l, fst (check_module_sources w directory parser_data) = Returned l) <->
   Forall (block_checkable w) items).
Proof.
  intros Hmod. unfold check_module_sources. rewrite Hmod.
  unfold py_items. rewrite bind_ret. apply for_modules_returns_iff.
Qed.


(** X2: the loop stops at the first block whose check raises: the blocks
    after it are never looked at, the entries found before it are dropped,
    and the file's result carries the text of that exception as its only
    issue. *)
Theorem first_raising_block_aborts_the_check
    (w : World) (directory file_path : string) (parser_data : PyDict)
    (pre post : list (string * PyVal)) (name : string) (config : PyVal)
    (l_pre : list string) (t_pre t : Trace) (e : PyExc) :
  load_file w file_path = Returned parser_data ->
  dict_get "module" parser_data = Some (PDict (pre ++ (name, config) :: post)) ->
  for_modules w directory pre [] = (Returned l_pre, t_pre) ->
  check_module w directory name config [] = (Raised e, t) ->
  check_module_sources w directory parser_data = (Raised e, t_pre ++ t) /\
  validate_file w directory file_path =
  (Returned (mkValidationResult file_path
               [("Error during validation: " ++ exc_str e)%string] false),
   EvLog INFO ("Validating file: " ++ file_path) :: EvLoad file_path ::
   (t_pre ++ t) ++
   [EvLog ERROR ("Error validating file " ++ file_path ++ ": " ++ exc_str e)]).
Proof.
  intros Hload Hmod Hpre Hone.
  assert (Hcheck : check_module_sources w directory parser_data = (Raised e, t_pre ++ t)).
  { unfold check_module_sources. rewrite Hmod. unfold py_items. rewrite bind_ret.
    rewrite (for_modules_app _ _ _ _ _ _ _ Hpre). simpl.
    rewrite (check_module_acc _ _ _ _ l_pre), Hone. reflexivity. }
  split; [exact Hcheck |].
  exact (validate_file_checker_raised _ _ _ _ _ _ Hload Hcheck).
Qed.


Lemma check_module_adds_at_most_one w directory name config l :
  fst (check_module w directory name config []) = Returned l ->
  (List.length l <= 1)%nat.
Proof.
  destruct config as [| b | z | s | l0 | cfg]; try discriminate.
  run_py.
  destruct (dict_get "source" cfg) as [source |]; simpl;
    [| intros [= <-]; simpl; lia].
  destruct (truthy source); simpl; [| intros [= <-]; simpl; lia].
  destruct source as [| b | z | s | l0 | d]; try discriminate. simpl.
  destruct (urlparse_scheme w s) as [scheme | e]; simpl; [| discriminate].
  destruct (String.eqb scheme "http" || String.eqb scheme "https"); simpl.
  - destruct (requests_head w s) as [code | e]; simpl.
    + destruct (400 <=? code)%Z; simpl; intros [= <-]; simpl; lia.
    + destruct (is_RequestException e); simpl; [| discriminate].
      intros [= <-]; simpl; lia.
  - destruct (String.eqb scheme ""); simpl; [| intros [= <-]; simpl; lia].
    destruct (path_exists w (os_path_join directory s)); simpl;
      intros [= <-]; simpl; lia.
Qed.

Lemma for_modules_length w directory items :
  forall acc l,
  fst (for_modules w directory items acc) = Returned l ->
  (List.length l <= List.length acc + List.length items)%nat.
Proof.
  induction items as [| [name config] rest IH]; intros acc l Hl.
  - simpl in Hl. injection Hl as <-. simpl. lia.
  - simpl in Hl. apply bind_fst_inv in Hl. destruct Hl as (acc' & H1 & H2).
    rewrite check_module_acc in H1. unfold map_py in H1. simpl in H1.
    destruct (fst (check_module w directory name config [])) as [l0 |] eqn:H0;
      [| discriminate].
    injection H1 as <-.
    apply check_module_adds_at_most_one in H0.
    apply IH in H2. rewrite length_app in H2. simpl. lia.
Qed.

(** X3: the list returned by [check_module_sources] never has more entries
    than the "module" section has blocks: a block contributes one entry at
    most. *)
Theorem module_issues_bounded_by_block_count
    (w : World) (directory : string) (parser_data : PyDict) (l : list string) :
  fst (check_module_sources w directory parser_data) = Returned l ->
  (List.length l <= module_count parser_data)%nat.
Proof.
  unfold check_module_sources, module_count.
  destruct (dict_get "module" parser_data) as [[| b | z | s | l0 | items] |];
    try discriminate.
  - unfold py_items. rewrite bind_ret. intros H.
    apply for_modules_length in H. simpl in H. exact H.
  - simpl. intros [= <-]. simpl. lia.
Qed.


Lemma check_module_trace w directory name config acc :
  Forall checker_event (snd (check_module w directory name config acc)) /\
  (List.length (filter is_check (snd (check_module w directory name config acc))) <= 1)%nat.
Proof.
  destruct config as [| b | z | s | l0 | cfg];
    try (split; [constructor | simpl; lia]).
  run_py.
  destruct (dict_get "source" cfg) as [source |]; simpl;
    [| split; [constructor | simpl; lia]].
  destruct (truthy source); simpl; [| split; [constructor | simpl; lia]].
  destruct source as [| b | z | s | l0 | d];
    try (split; [constructor | simpl; lia]).
  simpl.
  destruct (urlparse_scheme w s) as [scheme | e]; simpl;
    [| split; [constructor | simpl; lia]].
  destruct (String.eqb scheme "http" || String.eqb scheme "https"); simpl.
  - destruct (requests_head w s) as [code | e]; simpl.
    + destruct (400 <=? code)%Z; simpl;
        (split; [repeat constructor | simpl; lia]).
    + destruct (is_RequestException e); simpl;
        (split; [repeat constructor | simpl; lia]).
  - destruct (String.eqb scheme ""); simpl;
      [| split; [constructor | simpl; lia]].
    destruct (path_exists w (os_path_join directory s)); simpl;
      (split; [repeat constructor | simpl; lia]).
Qed.

Lemma for_modules_trace w directory items :
  forall acc,
  Forall checker_event (snd (for_modules w directory items acc)) /\
  (List.length (filter is_check (snd (for_modules w directory items acc)))
   <= List.length items)%nat.
Proof.
  induction items as [| [name config] rest IH]; intros acc.
  - simpl. split; [constructor | lia].
  - simpl. rewrite bind_snd.
    destruct (check_module_trace w directory name config acc) as (Hall & Hcount).
    destruct (fst (check_module w directory name config acc)) as [acc' | e].
    + destruct (IH acc') as (Hall' & Hcount'). split.
      * apply Forall_app. split; assumption.
      * rewrite filter_app, length_app. lia.
    + split; [exact Hall | lia].
Qed.

Lemma check_module_sources_trace w directory parser_data :
  Forall checker_event (snd (check_module_sources w directory parser_data)) /\
  (List.length (filter is_check (snd (check_module_sources w directory parser_data)))
   <= module_count parser_data)%nat.
Proof.
  unfold check_module_sources, module_count.
  destruct (dict_get "module" parser_data) as [[| b | z | s | l0 | items] |];
    try (split; [constructor | simpl; lia]).
  unfold py_items. rewrite bind_ret. apply for_modules_trace.
Qed.

(** X4: whatever the parsed file holds and however the check ends,
    [check_module_sources] causes nothing but probes, existence tests and
    warning records, and at most one probe or existence test per module
    block: it retries nothing, spawns nothing, reads no file. *)
Theorem module_checker_one_check_per_block
    (w : World) (directory : string) (parser_data : PyDict) :
  Forall checker_event (snd (check_module_sources w directory parser_data)) /\
  (List.length (filter is_check (snd (check_module_sources w directory parser_data)))
   <= module_count parser_data)%nat.
Proof. apply check_module_sources_trace. Qed.

(** ** The loop of the URL reachability check *)

Lemma for_urls_results w urls :
  Forall (probe_handled w) urls ->
  forall acc,
  fst (for_urls w urls acc) = Returned (acc ++ filter (unreachable w) urls) /\
  probed_urls (snd (for_urls w urls acc)) = urls.
Proof.
  induction 1 as [| url rest Hurl _ IH]; intros acc.
  - simpl. rewrite app_nil_r. split; reflexivity.
  - cbn [for_urls filter]. unfold probe_handled in Hurl. unfold unreachable at 1.
    unfold try_except, probe, lift, emit, logger.
    rewrite bind_snd. unfold bind at 1 2 3 4 5 6 7. simpl.
    destruct (requests_head w url) as [code | e]; simpl.
    + destruct (400 <=? code)%Z; simpl.
      * destruct (IH (acc ++ [url])) as (Hres & Htr).
        rewrite Hres, Htr, <- app_assoc. split; reflexivity.
      * destruct (IH acc) as (Hres & Htr). rewrite Hres, Htr. split; reflexivity.
    + rewrite Hurl. simpl.
      destruct (IH (acc ++ [url])) as (Hres & Htr).
      rewrite Hres, Htr, <- app_assoc. split; reflexivity.
Qed.

(** X5: given any list of URLs whose probes answer or raise a
    RequestException, the loop of [check_url_reachability] probes each URL
    once, in list order, and returns, in that order, exactly the URLs whose
    probe answered a status of 400 or more or raised. *)
Theorem url_loop_keeps_unreachable_urls_in_order (w : World) (urls : list string) :
  Forall (probe_handled w) urls ->
  fst (for_urls w urls []) = Returned (filter (unreachable w) urls) /\
  probed_urls (snd (for_urls w urls [])) = urls.
Proof. intros H. exact (for_urls_results w urls H []). Qed.


(** ** The File Validator: what a result can look like *)

(** X6: a ValidationResult built by [validate_file] names the file it was
    asked about and never lists more than one issue: either the summary of
    the invalid module sources or the text of the exception caught. *)
Theorem validate_file_reports_at_most_one_issue
    (w : World) (directory path : string) :
  exists r, fst (validate_file w directory path) = Returned r /\
            file_path r = path /\
            (List.length (issues r) <= 1)%nat.
Proof.
  destruct (load_file w path) as [pd | e] eqn:Hload.
  - destruct (check_module_sources w directory pd) as [[l | e] t] eqn:Hcheck.
    + rewrite (validate_file_parsed _ _ _ _ _ _ Hload Hcheck). simpl.
      eexists; split; [reflexivity | split; [reflexivity |]]. simpl.
      unfold module_issues. destruct l; simpl; lia.
    + rewrite (validate_file_checker_raised _ _ _ _ _ _ Hload Hcheck). simpl.
      eexists; split; [reflexivity | split; [reflexivity |]]. simpl. lia.
  - rewrite (validate_file_parse_raised _ directory _ _ Hload). simpl.
    eexists; split; [reflexivity | split; [reflexivity |]]. simpl. lia.
Qed.

(** X7: a file that parses and has no "module" section, or an empty one,
    is valid with no issue, after no other external call than opening it:
    neither the network nor the disk is consulted. *)
Theorem file_without_modules_is_valid
    (w : World) (directory file_path : string) (parser_data : PyDict) :
  load_file w file_path = Returned parser_data ->
  dict_get "module" parser_data = None \/
  dict_get "module" parser_data = Some (PDict []) ->
  validate_file w directory file_path =
  (Returned (mkValidationResult file_path [] true),
   [EvLog INFO ("Validating file: " ++ file_path); EvLoad file_path]).
Proof.
  intros Hload Hmod.
  assert (Hcheck : check_module_sources w directory parser_data = (Returned [], [])).
  { unfold check_module_sources. destruct Hmod as [-> | ->]; reflexivity. }
  exact (validate_file_parsed _ _ _ _ _ _ Hload Hcheck).
Qed.


(** X8: when the "module" section of a parsed file is anything but a
    mapping (a list of blocks, for one), no block is checked: the result is
    invalid and its only issue is the AttributeError raised by [.items()]. *)
Theorem module_section_must_be_a_mapping
    (w : World) (directory file_path : string) (parser_data : PyDict) (modules : PyVal) :
  load_file w file_path = Returned parser_data ->
  dict_get "module" parser_data = Some modules ->
  (forall items, modules <> PDict items) ->
  validate_file w directory file_path =
  (Returned (mkValidationResult file_path
     [("Error during validation: '" ++ type_name modules ++
       "' object has no attribute 'items'")%string] false),
   [EvLog INFO ("Validating file: " ++ file_path); EvLoad file_path;
    EvLog ERROR ("Error validating file " ++ file_path ++ ": '" ++
                 type_name modules ++ "' object has no attribute 'items'")]).
Proof.
  intros Hload Hmod Hnot.
  assert (Hcheck : check_module_sources w directory parser_data =
                   (Raised (no_attribute modules "items"), [])).
  { unfold check_module_sources. rewrite Hmod.
    destruct modules as [| b | z | s | l | items]; try reflexivity.
    now elim (Hnot items). }
  exact (validate_file_checker_raised _ _ _ _ _ _ Hload Hcheck).
Qed.


Lemma checker_event_after_load ev : checker_event ev -> after_load_event ev.
Proof. destruct ev as [[] msg | | | | | |]; simpl; auto. Qed.

Lemma validate_file_trace w directory file_path :
  exists rest,
    snd (validate_file w directory file_path) =
    EvLog INFO ("Validating file: " ++ file_path) :: EvLoad file_path :: rest /\
    Forall after_load_event rest.
Proof.
  destruct (load_file w file_path) as [pd | e] eqn:Hload.
  - pose proof (proj1 (check_module_sources_trace w directory pd)) as Htr.
    destruct (check_module_sources w directory pd) as [[l | e] t] eqn:Hcheck.
    + rewrite (validate_file_parsed _ _ _ _ _ _ Hload Hcheck). simpl.
      exists t. split; [reflexivity |].
      eapply Forall_impl; [apply checker_event_after_load | exact Htr].
    + rewrite (validate_file_checker_raised _ _ _ _ _ _ Hload Hcheck). simpl.
      eexists. split; [reflexivity |].
      apply Forall_app. split.
      * eapply Forall_impl; [apply checker_event_after_load | exact Htr].
      * repeat constructor.
  - rewrite (validate_file_parse_raised _ directory _ _ Hload). simpl.
    eexists. split; [reflexivity |]. repeat constructor.
Qed.

(** X9: every run of [validate_file] starts by logging the file and opening
    it, once; everything after that is a probe, an existence test or a log
    record: it never opens a second file, lists a directory or spawns a
    process. *)
Theorem validate_file_opens_its_file_once
    (w : World) (directory file_path : string) :
  exists rest,
    snd (validate_file w directory file_path) =
    EvLog INFO ("Validating file: " ++ file_path) :: EvLoad file_path :: rest /\
    Forall after_load_event rest.
Proof. apply validate_file_trace. Qed.

(** ** The Directory Validator: what it runs and what its results depend on *)

Lemma bind_snd_returned {A B} (m : Py A) (k : A -> Py B) a :
  fst m = Returned a -> snd (bind m k) = snd m ++ snd (k a).
Proof. intros H. rewrite bind_snd, H. reflexivity. Qed.

Lemma bind_ext {A B} (m : Py A) (k1 k2 : A -> Py B) :
  (forall a, k1 a = k2 a) -> bind m k1 = bind m k2.
Proof. intros H. unfold bind. destruct (fst m); [rewrite H |]; reflexivity. Qed.

Lemma gate_open_filter (names : list string) :
  existsb is_tf names = true -> negb (nonempty (filter is_tf names)) = false.
Proof.
  intros Hsome. apply existsb_exists in Hsome. destruct Hsome as (name & Hin & Htf).
  destruct (filter is_tf names) eqn:Hf; [| reflexivity].
  assert (Hin' : In name (filter is_tf names)) by (apply filter_In; split; assumption).
  rewrite Hf in Hin'. destruct Hin'.
Qed.

Lemma gate_closed_filter (names : list string) :
  existsb is_tf names = false -> filter is_tf names = [].
Proof.
  intros Hnone. apply filter_none. intros name Hin.
  destruct (is_tf name) eqn:Htf; [| reflexivity].
  assert (existsb is_tf names = true) by (apply existsb_exists; eauto).
  congruence.
Qed.

Ltac runner_trace w argv :=
  unfold run_subprocess, try_except, bind, lift, logger, emit; simpl;
  destruct (subprocess_run w argv) as [cp | e]; simpl;
  [ destruct (Z.eqb (returncode cp) 0); split; reflexivity
  | unfold terraform_except;
    destruct (is_CalledProcessError e); [split; reflexivity |];
    destruct (is_FileNotFoundError e); split; reflexivity ].

Lemma run_terraform_fmt_trace w directory :
  subprocess_calls (snd (run_terraform_fmt w directory)) =
    [["terraform"; "fmt"; "-check"; directory]] /\
  loaded_files (snd (run_terraform_fmt w directory)) = [].
Proof.
  unfold run_terraform_fmt.
  runner_trace w ["terraform"; "fmt"; "-check"; directory].
Qed.

Lemma run_terraform_init_trace w directory :
  subprocess_calls (snd (run_terraform_init w directory)) =
    [["terraform"; "init"; directory]] /\
  loaded_files (snd (run_terraform_init w directory)) = [].
Proof.
  unfold run_terraform_init. runner_trace w ["terraform"; "init"; directory].
Qed.

Lemma run_terraform_validate_trace w directory :
  subprocess_calls (snd (run_terraform_validate w directory)) =
    [["terraform"; "validate"; directory]] /\
  loaded_files (snd (run_terraform_validate w directory)) = [].
Proof.
  unfold run_terraform_validate. runner_trace w ["terraform"; "validate"; directory].
Qed.

Lemma run_terraform_plan_trace w directory :
  subprocess_calls (snd (run_terraform_plan w directory)) =
    [["terraform"; "plan"; directory]] /\
  loaded_files (snd (run_terraform_plan w directory)) = [].
Proof.
  unfold run_terraform_plan. runner_trace w ["terraform"; "plan"; directory].
Qed.

Lemma warn_unless_trace ok msg :
  subprocess_calls (snd (warn_unless ok msg)) = [] /\
  loaded_files (snd (warn_unless ok msg)) = [].
Proof. destruct ok; split; reflexivity. Qed.

Lemma after_load_quiet (t : Trace) :
  Forall after_load_event t -> subprocess_calls t = [] /\ loaded_files t = [].
Proof.
  induction 1 as [| ev t Hev _ [IH1 IH2]]; [split; reflexivity |].
  unfold subprocess_calls, loaded_files in *. simpl. rewrite IH1, IH2.
  destruct ev; simpl in *; try contradiction; split; reflexivity.
Qed.

Lemma validate_file_calls w directory file_path :
  subprocess_calls (snd (validate_file w directory file_path)) = [] /\
  loaded_files (snd (validate_file w directory file_path)) = [file_path].
Proof.
  destruct (validate_file_trace w directory file_path) as (rest & -> & Hrest).
  destruct (after_load_quiet rest Hrest) as (H1 & H2).
  unfold subprocess_calls, loaded_files in *. simpl. rewrite H1, H2.
  split; reflexivity.
Qed.

Lemma for_files_calls w directory root files :
  forall results,
  subprocess_calls (snd (for_files w directory root files results)) = [] /\
  loaded_files (snd (for_files w directory root files results)) =
  map (os_path_join root) (filter is_tf files).
Proof.
  induction files as [| file rest IH]; intros results; [split; reflexivity |].
  cbn [for_files filter]. destruct (is_tf file).
  - destruct (validate_file_returns w directory (os_path_join root file))
      as (r & Hr & _).
    destruct (validate_file_calls w directory (os_path_join root file)) as (V1 & V2).
    assert (Hstep : fst (bind (validate_file w directory (os_path_join root file))
                           (fun r => ret (results ++ [r]))) =
                    Returned (results ++ [r]))
      by (rewrite (bind_fst_returned _ _ _ Hr); reflexivity).
    rewrite (bind_snd_returned _ _ _ Hstep), (bind_snd_returned _ _ _ Hr).
    destruct (IH (results ++ [r])) as (I1 & I2).
    unfold subprocess_calls, loaded_files in *.
    rewrite !flat_map_app, V1, V2, I1, I2. split; reflexivity.
  - rewrite bind_ret. apply IH.
Qed.

Lemma for_walk_calls w directory triples :
  forall results,
  subprocess_calls (snd (for_walk w directory triples results)) = [] /\
  loaded_files (snd (for_walk w directory triples results)) =
  flat_map (fun '(root, _, files) => map (os_path_join root) (filter is_tf files))
           triples.
Proof.
  induction triples as [| [[root dirs] files] rest IH]; intros results;
    [split; reflexivity |].
  cbn [for_walk flat_map].
  destruct (for_files_results w directory root files results) as (rs1 & H1 & _).
  rewrite (bind_snd_returned _ _ _ H1).
  destruct (for_files_calls w directory root files results) as (F1 & F2).
  destruct (IH (results ++ rs1)) as (I1 & I2).
  unfold subprocess_calls, loaded_files in *.
  rewrite !flat_map_app, F1, F2, I1, I2. split; reflexivity.
Qed.

Lemma validate_directory_calls w directory :
  listdir_error w = None ->
  existsb is_tf (listdir_names (tree w)) = true ->
  subprocess_calls (snd (validate_directory w directory)) =
    [["terraform"; "fmt"; "-check"; directory];
     ["terraform"; "init"; directory];
     ["terraform"; "validate"; directory];
     ["terraform"; "plan"; directory]] /\
  loaded_files (snd (validate_directory w directory)) =
    candidate_files directory (tree w).
Proof.
  intros Hlist Hsome. unfold validate_directory, os_listdir. rewrite Hlist.
  rewrite (bind_returned _ _ (listdir_names (tree w)) [EvListdir directory])
    by reflexivity.
  cbv beta. rewrite (gate_open_filter _ Hsome). cbv iota. unfold snd at 1 3.
  destruct (run_terraform_fmt_outcome w directory) as (b1 & Hb1 & _).
  destruct (run_terraform_init_outcome w directory) as (b2 & Hb2 & _).
  destruct (run_terraform_validate_outcome w directory) as (b3 & Hb3 & _).
  destruct (run_terraform_plan_outcome w directory) as (b4 & Hb4 & _).
  rewrite !(bind_snd_returned _ _ _ Hb1).
  rewrite !(bind_snd_returned _ _ tt (warn_unless_returns _ _)).
  rewrite !(bind_snd_returned _ _ _ Hb2).
  rewrite !(bind_snd_returned _ _ tt (warn_unless_returns _ _)).
  rewrite !(bind_snd_returned _ _ _ Hb3).
  rewrite !(bind_snd_returned _ _ tt (warn_unless_returns _ _)).
  rewrite !(bind_snd_returned _ _ _ Hb4).
  rewrite !(bind_snd_returned _ _ tt (warn_unless_returns _ _)).
  unfold os_walk.
  rewrite !(bind_snd_returned _ _ (walk_triples directory (tree w)))
    by reflexivity.
  destruct (run_terraform_fmt_trace w directory) as (A1 & A2).
  destruct (run_terraform_init_trace w directory) as (B1 & B2).
  destruct (run_terraform_validate_trace w directory) as (C1 & C2).
  destruct (run_terraform_plan_trace w directory) as (D1 & D2).
  destruct (for_walk_calls w directory (walk_triples directory (tree w)) [])
    as (W1 & W2).
  unfold candidate_files.
  unfold subprocess_calls, loaded_files in *.
  rewrite !flat_map_app, A1, A2, B1, B2, C1, C2, D1, D2, W1, W2.
  destruct b1, b2, b3, b4; split; reflexivity.
Qed.

(** X10: when the directory can be listed and its listing has an entry
    ending in [.tf],
    [validate_directory] spawns exactly four subprocesses, in the order
    fmt -check, init, validate, plan, each with the directory as its last
    argument, and it does so whatever each of them answers: a failed or
    missing tool stops none of the later ones, and no file validation
    spawns anything. *)
Theorem validate_directory_runs_four_tools_in_order (w : World) (directory : string) :
  listdir_error w = None ->
  existsb is_tf (listdir_names (tree w)) = true ->
  subprocess_calls (snd (validate_directory w directory)) =
    [["terraform"; "fmt"; "-check"; directory];
     ["terraform"; "init"; directory];
     ["terraform"; "validate"; directory];
     ["terraform"; "plan"; directory]].
Proof. intros L H. exact (proj1 (validate_directory_calls w directory L H)). Qed.


(** X11: when the directory can be listed and its listing has an entry
    ending in [.tf],
    the files [validate_directory] opens for parsing are exactly the [.tf]
    files of the recursive walk, each opened once, in walk order; files with
    another extension are never opened. *)
Theorem validate_directory_opens_each_walked_file_once (w : World) (directory : string) :
  listdir_error w = None ->
  existsb is_tf (listdir_names (tree w)) = true ->
  loaded_files (snd (validate_directory w directory)) =
  candidate_files directory (tree w).
Proof. intros L H. exact (proj2 (validate_directory_calls w directory L H)). Qed.


Lemma validate_file_same w1 w2 directory file_path :
  load_file w1 file_path = load_file w2 file_path ->
  (forall url, requests_head w1 url = requests_head w2 url) ->
  (forall path, path_exists w1 path = path_exists w2 path) ->
  (forall s, urlparse_scheme w1 s = urlparse_scheme w2 s) ->
  validate_file w1 directory file_path = validate_file w2 directory file_path.
Proof.
  intros Hload Hhead Hex Hurl.
  destruct (load_file w2 file_path) as [pd | e] eqn:Hload2.
  - pose proof (check_module_sources_same w1 w2 directory pd Hhead Hex Hurl) as Hsame.
    destruct (check_module_sources w2 directory pd) as [[l | e] t] eqn:Hcheck.
    + rewrite (validate_file_parsed _ _ _ _ _ _ Hload Hsame),
              (validate_file_parsed _ _ _ _ _ _ Hload2 Hcheck). reflexivity.
    + rewrite (validate_file_checker_raised _ _ _ _ _ _ Hload Hsame),
              (validate_file_checker_raised _ _ _ _ _ _ Hload2 Hcheck). reflexivity.
  - rewrite (validate_file_parse_raised _ directory _ _ Hload),
            (validate_file_parse_raised _ directory _ _ Hload2). reflexivity.
Qed.

Lemma for_files_same w1 w2 directory root files :
  (forall path, load_file w1 path = load_file w2 path) ->
  (forall url, requests_head w1 url = requests_head w2 url) ->
  (forall path, path_exists w1 path = path_exists w2 path) ->
  (forall s, urlparse_scheme w1 s = urlparse_scheme w2 s) ->
  forall results,
  for_files w1 directory root files results = for_files w2 directory root files results.
Proof.
  intros Hload Hhead Hex Hurl.
  induction files as [| file rest IH]; intros results; [reflexivity |].
  cbn [for_files].
  rewrite (validate_file_same w1 w2 directory (os_path_join root file)
             (Hload _) Hhead Hex Hurl).
  apply bind_ext. exact IH.
Qed.

Lemma for_walk_same w1 w2 directory triples :
  (forall path, load_file w1 path = load_file w2 path) ->
  (forall url, requests_head w1 url = requests_head w2 url) ->
  (forall path, path_exists w1 path = path_exists w2 path) ->
  (forall s, urlparse_scheme w1 s = urlparse_scheme w2 s) ->
  forall results,
  for_walk w1 directory triples results = for_walk w2 directory triples results.
Proof.
  intros Hload Hhead Hex Hurl.
  induction triples as [| [[root dirs] files] rest IH]; intros results;
    [reflexivity |].
  cbn [for_walk].
  rewrite (for_files_same w1 w2 directory root files Hload Hhead Hex Hurl).
  apply bind_ext. exact IH.
Qed.

(** X12: the results of [validate_directory] do not depend on the external
    tool: two worlds with the same files, the same parse outcomes and the
    same network and disk answers give the same list of ValidationResult,
    whatever the four subprocesses do in each (exit 0, exit non-zero, fail
    to spawn). *)
Theorem validate_directory_results_ignore_tool_outcomes
    (w1 w2 : World) (directory : string) :
  same_files_and_network w1 w2 ->
  fst (validate_directory w1 directory) = fst (validate_directory w2 directory).
Proof.
  intros (Htree & Hlist & Hload & Hhead & Hex & Hurl).
  destruct (listdir_error w2) as [e |] eqn:Hlist2.
  - unfold validate_directory, os_listdir. rewrite Hlist, Hlist2. reflexivity.
  - destruct (existsb is_tf (listdir_names (tree w2))) eqn:Hgate.
    + rewrite (validate_directory_gate_open w2 directory Hlist2 Hgate).
      rewrite <- Htree in Hgate.
      rewrite (validate_directory_gate_open w1 directory Hlist Hgate).
      rewrite Htree.
      now rewrite (for_walk_same w1 w2 directory _ Hload Hhead Hex Hurl).
    + rewrite (validate_directory_gate_closed w2 directory Hlist2
                 (gate_closed_filter _ Hgate)).
      rewrite <- Htree in Hgate.
      rewrite (validate_directory_gate_closed w1 directory Hlist
                 (gate_closed_filter _ Hgate)).
      reflexivity.
Qed.


(** ** The entry point *)

Lemma validate_directory_returns w directory :
  listdir_error w = None ->
  exists results, fst (validate_directory w directory) = Returned results.
Proof.
  intros Hlist.
  destruct (existsb is_tf (listdir_names (tree w))) eqn:Hgate.
  - rewrite (validate_directory_gate_open w directory Hlist Hgate).
    destruct (for_walk_results w directory (walk_triples directory (tree w)) [])
      as (rs & Hrs & _).
    eauto.
  - rewrite (validate_directory_gate_closed w directory Hlist
               (gate_closed_filter _ Hgate)).
    simpl. eauto.
Qed.

Lemma out_bind_returned {A B} (m : Out A) (k : A -> Out B) a :
  fst m = Returned a ->
  out_bind m k = (fst (k a), snd m ++ snd (k a)).
Proof. intros H. unfold out_bind. rewrite H. reflexivity. Qed.

Lemma printed_app (a b : list Output) : printed (a ++ b) = printed a ++ printed b.
Proof. unfold printed. apply flat_map_app. Qed.

Lemma printed_pipeline (t : Trace) : printed (map Pipeline t) = [].
Proof. induction t as [| ev t IH]; [reflexivity | exact IH]. Qed.

Lemma printed_log lvl msg (out : list Output) :
  printed (RootLog lvl msg :: out) = printed out.
Proof. reflexivity. Qed.

Lemma for_issues_out (l : list string) :
  fst (for_issues l) = Returned tt /\ printed (snd (for_issues l)) = [].
Proof.
  induction l as [| issue rest [IH1 IH2]]; [split; reflexivity |].
  cbn [for_issues]. unfold logging.
  rewrite (out_bind_returned _ _ tt) by reflexivity. simpl.
  split; assumption.
Qed.

Lemma for_results_out (results : list ValidationResult) :
  forall has_errors,
  fst (for_results results has_errors) =
    Returned (has_errors || existsb (fun r => negb (is_valid r)) results) /\
  printed (snd (for_results results has_errors)) = [].
Proof.
  induction results as [| result rest IH]; intros has_errors.
  - simpl. rewrite orb_false_r. split; reflexivity.
  - cbn [for_results existsb]. destruct (is_valid result); simpl negb; cbv iota.
    + unfold logging.
      rewrite (out_bind_returned _ _ has_errors) by reflexivity.
      destruct (IH has_errors) as (IH1 & IH2). simpl.
      split; [exact IH1 | exact IH2].
    + destruct (for_issues_out (issues result)) as (F1 & F2).
      assert (Hstep :
        fst (out_bind (logging ERROR (newline ++ "File: " ++ file_path result))
               (fun _ => out_bind (for_issues (issues result))
                           (fun _ => out_ret true))) = Returned true).
      { unfold logging. rewrite (out_bind_returned _ _ tt) by reflexivity. simpl.
        rewrite (out_bind_returned _ _ tt F1). reflexivity. }
      rewrite (out_bind_returned _ _ true Hstep).
      destruct (IH true) as (IH1 & IH2). simpl fst. simpl snd.
      rewrite orb_true_r. split; [exact IH1 |].
      rewrite printed_log, printed_app, IH2, app_nil_r.
      rewrite (out_bind_returned _ _ tt F1). simpl snd.
      rewrite app_nil_r. exact F2.
Qed.

Lemma existsb_filter_length {A} (p : A -> bool) (l : list A) :
  existsb p l = negb (Nat.eqb (List.length (filter p l)) 0).
Proof.
  induction l as [| x l IH]; [reflexivity |].
  simpl. destruct (p x); simpl; [reflexivity | exact IH].
Qed.

(** X13: when the log file can be opened, the path exists and is a directory
    that can be listed, and standard output takes what is printed, [main]
    returns normally, also when files have issues (the failure is only told
    in the text), and it prints seven lines: the two headers, the number of
    results, the number of results that are not valid, and a status that
    reads FAILED exactly when that number is not zero. *)
Theorem main_prints_consistent_summary
    (w : World) (os_path_isdir : string -> bool)
    (log_file_error stdout_error : string -> option PyExc)
    (path log_file : string) :
  log_file_error log_file = None ->
  (forall text, stdout_error text = None) ->
  path_exists w path = true -> os_path_isdir path = true ->
  listdir_error w = None ->
  exists results,
    fst (validate_directory w path) = Returned results /\
    fst (main w os_path_isdir log_file_error stdout_error path log_file) = Returned tt /\
    let failed := List.length (filter (fun r => negb (is_valid r)) results) in
    printed (snd (main w os_path_isdir log_file_error stdout_error path log_file)) =
    [(newline ++ "Validation Results:")%string;
     "==================";
     (newline ++ "Validation Summary:")%string;
     "==================";
     ("Total files checked: " ++ str_of_nat (List.length results))%string;
     ("Files with issues: " ++ str_of_nat failed)%string;
     ("Status: " ++ (if Nat.eqb failed 0 then "✅ PASSED" else "❌ FAILED"))%string].
Proof.
  intros Hlog Hout Hex Hdir Hlist.
  destruct (validate_directory_returns w path Hlist) as (results & Hres).
  exists results. split; [exact Hres |].
  destruct (for_results_out results false) as (R1 & R2).
  simpl orb in R1. rewrite existsb_filter_length in R1.
  unfold main, out_try_except.
  assert (Hconf : fst (configure_logging log_file_error log_file) = Returned tt)
    by (unfold configure_logging; rewrite Hlog; reflexivity).
  rewrite (out_bind_returned _ _ tt Hconf).
  assert (Hinit : fst (pipeline (TerraformValidator_init w os_path_isdir path)) =
                  Returned path).
  { unfold pipeline, TerraformValidator_init, os_path_exists, bind, emit, ret, logger.
    simpl. rewrite Hex. simpl. rewrite Hdir. reflexivity. }
  rewrite (out_bind_returned _ _ path Hinit).
  assert (Hrun : fst (pipeline (validate_directory w path)) = Returned results)
    by exact Hres.
  rewrite (out_bind_returned _ _ results Hrun).
  unfold print. rewrite !Hout.
  rewrite (out_bind_returned _ _ tt) by reflexivity.
  rewrite (out_bind_returned _ _ tt) by reflexivity.
  rewrite (out_bind_returned _ _ _ R1).
  cbv beta. rewrite !Hout.
  unfold out_bind. cbn [fst snd].
  split; [reflexivity |].
  cbv zeta. unfold pipeline, configure_logging. cbn [snd].
  rewrite !printed_app, !printed_pipeline, R2.
  destruct (Nat.eqb (List.length (filter (fun r => negb (is_valid r)) results)) 0);
    reflexivity.
Qed.

(** X14: when the log file can be opened and the path does not exist, or
    exists and is not a directory, [main] raises the constructor's
    ValueError again after one "Validation failed" record: nothing is
    printed, and the validator does nothing but the one existence test (no
    listing, no subprocess, no configuration file parsed). *)
Theorem main_rejects_bad_directory
    (w : World) (os_path_isdir : string -> bool)
    (log_file_error stdout_error : string -> option PyExc)
    (path log_file : string) :
  log_file_error log_file = None ->
  path_exists w path && os_path_isdir path = false ->
  let msg := ((if path_exists w path then "Path is not a directory: "
               else "Directory does not exist: ") ++ path)%string in
  main w os_path_isdir log_file_error stdout_error path log_file =
  (Raised (mkExc (OtherException "ValueError") msg),
   [OpenLogFile log_file; Pipeline (EvExists path);
    RootLog ERROR ("Validation failed: " ++ msg)]).
Proof.
  intros Hlog Hbad msg. unfold msg.
  unfold main, out_try_except, out_bind, configure_logging, pipeline,
    TerraformValidator_init, os_path_exists, bind, emit, ret, raise, logger,
    logging, out_raise.
  rewrite Hlog. simpl.
  destruct (path_exists w path); simpl in *.
  - rewrite Hbad. reflexivity.
  - reflexivity.
Qed.

(** X17: when the log file cannot be opened, [main] raises that error again
    after one "Validation failed" record, before the constructor runs: the
    path is not even tested for existence and nothing is printed. *)
Theorem main_stops_when_log_file_cannot_be_opened
    (w : World) (os_path_isdir : string -> bool)
    (log_file_error stdout_error : string -> option PyExc)
    (path log_file : string) (e : PyExc) :
  log_file_error log_file = Some e ->
  main w os_path_isdir log_file_error stdout_error path log_file =
  (Raised e,
   [OpenLogFile log_file; RootLog ERROR ("Validation failed: " ++ exc_str e)]).
Proof.
  intros Hlog.
  unfold main, out_try_except, out_bind, configure_logging, logging, out_raise.
  rewrite Hlog. reflexivity.
Qed.


(** ** Order of the module issues; severity of the runners' records *)

(** X15: the entries returned for a "module" section follow the order in
    which the blocks are declared: splitting the section in two at any
    point, the list is what the first part yields followed by what the
    second part yields, and so is the sequence of probes and existence
    tests. *)
Theorem module_issues_follow_declaration_order
    (w : World) (directory : string) (parser_data : PyDict)
    (first second : list (string * PyVal))
    (l1 l2 : list string) (t1 t2 : Trace) :
  dict_get "module" parser_data = Some (PDict (first ++ second)) ->
  for_modules w directory first [] = (Returned l1, t1) ->
  for_modules w directory second [] = (Returned l2, t2) ->
  check_module_sources w directory parser_data = (Returned (l1 ++ l2), t1 ++ t2).
Proof.
  intros Hmod H1 H2.
  unfold check_module_sources. rewrite Hmod. unfold py_items. rewrite bind_ret.
  rewrite (for_modules_app _ _ _ _ _ _ _ H1).
  rewrite (for_modules_acc _ _ _ l1), H2. reflexivity.
Qed.


Ltac runner_alarm w argv :=
  unfold alarm_for, run_subprocess, try_except, bind, lift, logger, emit; simpl;
  destruct (subprocess_run w argv) as [cp | e]; simpl;
  [ destruct (Z.eqb (returncode cp) 0); reflexivity
  | unfold terraform_except;
    destruct (is_CalledProcessError e); [reflexivity |];
    destruct (is_FileNotFoundError e); reflexivity ].

(** X16: the severity of what a runner logs tells how its subprocess ended:
    no warning and no error record after exit status 0, exactly one warning
    record after any other exit status, exactly one error record when the
    spawn raised (missing binary or any other exception); this holds for
    each of the four runners. *)
Theorem runner_log_severity_tells_the_outcome (w : World) (directory : string) :
  alarm_levels (snd (run_terraform_fmt w directory)) =
    alarm_for w ["terraform"; "fmt"; "-check"; directory] /\
  alarm_levels (snd (run_terraform_init w directory)) =
    alarm_for w ["terraform"; "init"; directory] /\
  alarm_levels (snd (run_terraform_validate w directory)) =
    alarm_for w ["terraform"; "validate"; directory] /\
  alarm_levels (snd (run_terraform_plan w directory)) =
    alarm_for w ["terraform"; "plan"; directory].
Proof.
  split; [| split; [| split]].
  - unfold run_terraform_fmt.
    runner_alarm w ["terraform"; "fmt"; "-check"; directory].
  - unfold run_terraform_init. runner_alarm w ["terraform"; "init"; directory].
  - unfold run_terraform_validate.
    runner_alarm w ["terraform"; "validate"; directory].
  - unfold run_terraform_plan. runner_alarm w ["terraform"; "plan"; directory].
Qed.

End WithInterpreter.

(** * The properties on sample inputs *)

Section OnSamples.
#[local] Existing Instance Sample.interpreter.


Lemma validate_directory_without_tf_entries_witness :
  candidate_files "/proj" (tree Sample.world_nested_only) = ["/proj/modules/vpc.tf"] /\
  exists trace,
    validate_directory Sample.world_nested_only "/proj" = (Returned [], trace) /\
    (forall argv, ~ In (EvSubprocess argv) trace) /\
    (forall url, ~ In (EvHead url) trace).
Proof.
  split; [reflexivity |].
  destruct (validate_directory_without_tf_entries Sample.world_nested_only "/proj")
    as (trace & Hrun & _ & Hsub & Hhead).
  - reflexivity.
  - simpl. intros name [<- | [<- | []]]; reflexivity.
  - exists trace. split; [exact Hrun | split; [exact Hsub | exact Hhead]].
Defined.


Lemma unreachable_remote_source_reported_in_summary_witness :
  let found := ["Module mirror: Unreachable source URL https://example.invalid/mod";
                "Module gone: Local source path does not exist ./missing"] in
  fst (check_module_sources Sample.world "/proj" Sample.main_tf) = Returned found /\
  fst (validate_file Sample.world "/proj" "/proj/main.tf") =
  Returned (mkValidationResult "/proj/main.tf"
     [("Invalid or unreachable module sources found: " ++ repr_list found)%string]
     false).
Proof.
  refine (proj1 (unreachable_remote_source_reported_in_summary
            Sample.world "/proj" Sample.main_tf
            [("vpc", PDict [("source", PStr "./modules/vpc")])]
            [("registry", PDict [("source", PStr "git::ssh://example.invalid/repo")]);
             ("blank", PDict [("source", PStr "")]);
             ("bare", PDict [("version", PStr "1.0")]);
             ("gone", PDict [("source", PStr "./missing")])]
            "mirror" [("source", PStr "https://example.invalid/mod")]
            []
            ["Module gone: Local source path does not exist ./missing"]
            [EvExists "/proj/./modules/vpc"] [EvExists "/proj/./missing"]
            eq_refl eq_refl eq_refl
            "/proj/main.tf" "https://example.invalid/mod" "https"
            eq_refl eq_refl _ eq_refl (or_intror eq_refl)) _).
  - discriminate.
  - left. exists 404%Z. split; [reflexivity | lia].
Defined.

(** C2 as stated fails, in two ways.  When a later block has a source that
    [urlparse] refuses, the block whose http source answered 404 has been
    probed and recorded, but the exception discards the record: the only
    issue of the result is the text of the exception.  And when the source
    holds a backslash, the single summary line carries the printed form of
    the text, with the backslash doubled, not the text.  In both cases no
    entry of the issues holds the per-module text. *)
Lemma remote_issue_text_can_be_missing_from_the_result :
  (urlparse_scheme Sample.world_sibling "http://example.invalid/mod" = Returned "http" /\
   requests_head Sample.world_sibling "http://example.invalid/mod" = Returned 404%Z /\
   exists r,
     fst (validate_file Sample.world_sibling "/proj" "/proj/main.tf") = Returned r /\
     issues r = ["Error during validation: Invalid IPv6 URL"] /\
     filter (mentions (unreachable_source_msg "vpc" "http://example.invalid/mod"))
            (issues r) = []) /\
  (urlparse_scheme Sample.world_backslash "http://example.invalid/a\b" = Returned "http" /\
   requests_head Sample.world_backslash "http://example.invalid/a\b" = Returned 404%Z /\
   exists r,
     fst (validate_file Sample.world_backslash "/proj" "/proj/main.tf") = Returned r /\
     issues r =
       ["Invalid or unreachable module sources found: ['Module vpc: Unreachable source URL http://example.invalid/a\\b']"] /\
     filter (mentions (unreachable_source_msg "vpc" "http://example.invalid/a\b"))
            (issues r) = []).
Proof.
  split; (split; [reflexivity | split; [reflexivity |]]);
    eexists; (split; [reflexivity | split; reflexivity]).
Qed.

(** C5 as stated fails when another block of the section raises: the block
    with the local source "./missing" is checked and its path is missing,
    but a later block has a source that [urlparse] refuses, so
    [check_module_sources] raises instead of returning the issue, and the
    result of the file does not carry it. *)
Lemma local_issue_lost_when_another_block_raises :
  urlparse_scheme Sample.world_sibling "./missing" = Returned "" /\
  path_exists Sample.world_sibling (os_path_join "/proj" "./missing") = false /\
  check_module_sources Sample.world_sibling "/proj" Sample.sibling_tf =
  (Raised (mkExc (OtherException "ValueError") "Invalid IPv6 URL"),
   [EvExists "/proj/./missing"; EvHead "http://example.invalid/mod"]) /\
  exists r,
    fst (validate_file Sample.world_sibling "/proj" "/proj/main.tf") = Returned r /\
    filter (mentions (missing_local_msg "gone" "./missing")) (issues r) = [].
Proof.
  split; [reflexivity | split; [reflexivity | split; [reflexivity |]]].
  eexists. split; reflexivity.
Qed.


(** C3: the code at the input where it departs from the claim.  No file
    directly under the directory has a name ending in [.tf] (its only entry
    is the sub-directory mods.tf), yet the listing counts that entry: the
    four subprocesses are spawned and a result is returned for the file
    inside the sub-directory. *)
Theorem tf_named_directory_opens_the_gate :
  file_names (tree Sample.world_tf_directory) = [] /\
  listdir_names (tree Sample.world_tf_directory) = ["mods.tf"] /\
  subprocess_calls (snd (validate_directory Sample.world_tf_directory "/proj")) =
    [["terraform"; "fmt"; "-check"; "/proj"];
     ["terraform"; "init"; "/proj"];
     ["terraform"; "validate"; "/proj"];
     ["terraform"; "plan"; "/proj"]] /\
  fst (validate_directory Sample.world_tf_directory "/proj") =
    Returned [mkValidationResult "/proj/mods.tf/a.tf" [] true].
Proof. repeat split. Qed.

Lemma local_module_source_checked_on_disk_witness :
  path_exists Sample.world (os_path_join "/proj" "./missing") = false /\
  fst (check_module_sources Sample.world "/proj" Sample.main_tf) =
  Returned ["Module mirror: Unreachable source URL https://example.invalid/mod";
            "Module gone: Local source path does not exist ./missing"].
Proof.
  split; [reflexivity |].
  refine (proj1 (proj1 (local_module_source_checked_on_disk
            Sample.world "/proj" Sample.main_tf
            [("vpc", PDict [("source", PStr "./modules/vpc")]);
             ("mirror", PDict [("source", PStr "https://example.invalid/mod")]);
             ("registry", PDict [("source", PStr "git::ssh://example.invalid/repo")]);
             ("blank", PDict [("source", PStr "")]);
             ("bare", PDict [("version", PStr "1.0")])]
            []
            "gone" [("source", PStr "./missing")]
            ["Module mirror: Unreachable source URL https://example.invalid/mod"]
            []
            [EvExists "/proj/./modules/vpc"; EvHead "https://example.invalid/mod"] []
            eq_refl eq_refl eq_refl)
            "./missing" eq_refl eq_refl eq_refl) eq_refl).
Defined.

Lemma empty_source_string_is_skipped_witness :
  check_module Sample.world "/proj" "blank" (PDict [("source", PStr "")]) [] =
  (Returned [], []) /\
  check_module_sources Sample.world "/proj" Sample.main_tf =
  (Returned ["Module mirror: Unreachable source URL https://example.invalid/mod";
             "Module gone: Local source path does not exist ./missing"],
   [EvExists "/proj/./modules/vpc"; EvHead "https://example.invalid/mod";
    EvExists "/proj/./missing"]).
Proof.
  exact (empty_source_string_is_skipped
           Sample.world "/proj" Sample.main_tf
           [("vpc", PDict [("source", PStr "./modules/vpc")]);
            ("mirror", PDict [("source", PStr "https://example.invalid/mod")]);
            ("registry", PDict [("source", PStr "git::ssh://example.invalid/repo")])]
           [("bare", PDict [("version", PStr "1.0")]);
            ("gone", PDict [("source", PStr "./missing")])]
           "blank" [("source", PStr "")]
           ["Module mirror: Unreachable source URL https://example.invalid/mod"]
           ["Module gone: Local source path does not exist ./missing"]
           [EvExists "/proj/./modules/vpc"; EvHead "https://example.invalid/mod"]
           [EvExists "/proj/./missing"]
           eq_refl eq_refl eq_refl eq_refl).
Defined.

(** C8 as stated fails: on a configuration that holds a URL three levels
    down, [extract_urls] does not return what the recursive walk finds. *)
Lemma extract_urls_misses_nested_url :
  spec_extract_urls Sample.with_url = ["https://example.com/health"] /\
  fst (extract_urls Sample.with_url) <> Returned (spec_extract_urls Sample.with_url).
Proof. split; [reflexivity | discriminate]. Qed.

Lemma validate_file_deterministic_witness :
  subprocess_run Sample.world ["terraform"; "plan"; "/proj"] <>
  subprocess_run Sample.world_without_terraform ["terraform"; "plan"; "/proj"] /\
  validate_file Sample.world "/proj" "/proj/main.tf" =
  validate_file Sample.world_without_terraform "/proj" "/proj/main.tf".
Proof.
  split; [discriminate |].
  apply validate_file_deterministic.
  split; [reflexivity | split; [| split]]; intros; reflexivity.
Defined.

Lemma check_module_sources_returns_iff_checkable_witness :
  (exists l, fst (check_module_sources Sample.world "/proj" Sample.main_tf) = Returned l) <->
  Forall (block_checkable Sample.world)
    [("vpc", PDict [("source", PStr "./modules/vpc")]);
     ("mirror", PDict [("source", PStr "https://example.invalid/mod")]);
     ("registry", PDict [("source", PStr "git::ssh://example.invalid/repo")]);
     ("blank", PDict [("source", PStr "")]);
     ("bare", PDict [("version", PStr "1.0")]);
     ("gone", PDict [("source", PStr "./missing")])].
Proof.
  exact (check_module_sources_returns_iff_checkable
           Sample.world "/proj" Sample.main_tf _ eq_refl).
Defined.

Lemma first_raising_block_aborts_the_check_witness :
  validate_file Sample.world_legacy "/proj" "/proj/main.tf" =
  (Returned (mkValidationResult "/proj/main.tf"
               ["Error during validation: 'list' object has no attribute 'decode'"] false),
   [EvLog INFO "Validating file: /proj/main.tf"; EvLoad "/proj/main.tf";
    EvExists "/proj/./missing";
    EvLog ERROR "Error validating file /proj/main.tf: 'list' object has no attribute 'decode'"]).
Proof.
  exact (proj2 (first_raising_block_aborts_the_check
           Sample.world_legacy "/proj" "/proj/main.tf" Sample.legacy_tf
           [("first", PDict [("source", PStr "./missing")])]
           [("third", PDict [("source", PStr "https://example.invalid/mod")])]
           "second" (PDict [("source", PList [PStr "./missing"])])
           ["Module first: Local source path does not exist ./missing"]
           [EvExists "/proj/./missing"] []
           (no_attribute (PList [PStr "./missing"]) "decode")
           eq_refl eq_refl eq_refl eq_refl)).
Defined.

Lemma module_issues_bounded_by_block_count_witness :
  (2 <= module_count Sample.main_tf)%nat.
Proof.
  exact (module_issues_bounded_by_block_count Sample.world "/proj" Sample.main_tf
           ["Module mirror: Unreachable source URL https://example.invalid/mod";
            "Module gone: Local source path does not exist ./missing"]
           eq_refl).
Defined.

Lemma url_loop_keeps_unreachable_urls_in_order_witness :
  fst (for_urls Sample.world_mixed
         ["https://up.example/"; "https://gone.example/"; "https://down.example/"] []) =
  Returned ["https://gone.example/"; "https://down.example/"].
Proof.
  refine (proj1 (url_loop_keeps_unreachable_urls_in_order Sample.world_mixed
            ["https://up.example/"; "https://gone.example/"; "https://down.example/"] _)).
  repeat constructor.
Defined.

Lemma file_without_modules_is_valid_witness :
  validate_file Sample.world_plain "/proj" "/proj/main.tf" =
  (Returned (mkValidationResult "/proj/main.tf" [] true),
   [EvLog INFO "Validating file: /proj/main.tf"; EvLoad "/proj/main.tf"]).
Proof.
  exact (file_without_modules_is_valid Sample.world_plain "/proj" "/proj/main.tf"
           Sample.plain_tf eq_refl (or_introl eq_refl)).
Defined.

Lemma module_section_must_be_a_mapping_witness :
  validate_file Sample.world_listed "/proj" "/proj/main.tf" =
  (Returned (mkValidationResult "/proj/main.tf"
     ["Error during validation: 'list' object has no attribute 'items'"] false),
   [EvLog INFO "Validating file: /proj/main.tf"; EvLoad "/proj/main.tf";
    EvLog ERROR "Error validating file /proj/main.tf: 'list' object has no attribute 'items'"]).
Proof.
  refine (module_section_must_be_a_mapping Sample.world_listed "/proj" "/proj/main.tf"
            Sample.listed_tf _ eq_refl eq_refl _).
  intros items. discriminate.
Defined.

Lemma validate_directory_runs_four_tools_in_order_witness :
  subprocess_calls (snd (validate_directory Sample.world_without_terraform "/proj")) =
    [["terraform"; "fmt"; "-check"; "/proj"];
     ["terraform"; "init"; "/proj"];
     ["terraform"; "validate"; "/proj"];
     ["terraform"; "plan"; "/proj"]].
Proof.
  exact (validate_directory_runs_four_tools_in_order
           Sample.world_without_terraform "/proj" eq_refl eq_refl).
Defined.

Lemma validate_directory_opens_each_walked_file_once_witness :
  loaded_files (snd (validate_directory Sample.world "/proj")) =
  ["/proj/main.tf"; "/proj/modules/vpc/vpc.tf"].
Proof.
  exact (validate_directory_opens_each_walked_file_once Sample.world "/proj"
           eq_refl eq_refl).
Defined.

Lemma validate_directory_results_ignore_tool_outcomes_witness :
  fst (validate_directory Sample.world "/proj") =
  fst (validate_directory Sample.world_without_terraform "/proj").
Proof.
  apply validate_directory_results_ignore_tool_outcomes.
  split; [reflexivity | split; [reflexivity | split; [| split; [| split]]]];
    intros; reflexivity.
Defined.

Lemma main_prints_consistent_summary_witness :
  fst (main Sample.world (fun _ => true) (fun _ => None) (fun _ => None)
         "/proj" "terraform_validator.log") = Returned tt /\
  printed (snd (main Sample.world (fun _ => true) (fun _ => None) (fun _ => None)
                  "/proj" "terraform_validator.log")) =
  [(newline ++ "Validation Results:")%string;
   "==================";
   (newline ++ "Validation Summary:")%string;
   "==================";
   "Total files checked: 2";
   "Files with issues: 2";
   "Status: ❌ FAILED"].
Proof.
  destruct (main_prints_consistent_summary Sample.world (fun _ => true)
              (fun _ => None) (fun _ => None) "/proj" "terraform_validator.log"
              eq_refl (fun _ => eq_refl) eq_refl eq_refl eq_refl)
    as (results & Hres & Hret & Hprinted).
  split; [exact Hret |].
  vm_compute in Hres. injection Hres as <-. exact Hprinted.
Defined.

Lemma main_rejects_bad_directory_witness :
  main Sample.world (fun _ => true) (fun _ => None) (fun _ => None)
       "/nowhere" "terraform_validator.log" =
  (Raised (mkExc (OtherException "ValueError") "Directory does not exist: /nowhere"),
   [OpenLogFile "terraform_validator.log"; Pipeline (EvExists "/nowhere");
    RootLog ERROR "Validation failed: Directory does not exist: /nowhere"]).
Proof.
  exact (main_rejects_bad_directory Sample.world (fun _ => true)
           (fun _ => None) (fun _ => None) "/nowhere" "terraform_validator.log"
           eq_refl eq_refl).
Defined.

Lemma main_stops_when_log_file_cannot_be_opened_witness :
  main Sample.world (fun _ => true)
       (fun _ => Some (mkExc (OtherException "PermissionError") "Permission denied"))
       (fun _ => None) "/proj" "/var/log/validator.log" =
  (Raised (mkExc (OtherException "PermissionError") "Permission denied"),
   [OpenLogFile "/var/log/validator.log";
    RootLog ERROR "Validation failed: Permission denied"]).
Proof.
  exact (main_stops_when_log_file_cannot_be_opened Sample.world (fun _ => true)
           (fun _ => Some (mkExc (OtherException "PermissionError") "Permission denied"))
           (fun _ => None) "/proj" "/var/log/validator.log" _ eq_refl).
Defined.

Lemma module_issues_follow_declaration_order_witness :
  check_module_sources Sample.world "/proj" Sample.main_tf =
  (Returned (["Module mirror: Unreachable source URL https://example.invalid/mod"] ++
             ["Module gone: Local source path does not exist ./missing"]),
   [EvExists "/proj/./modules/vpc"; EvHead "https://example.invalid/mod"] ++
   [EvExists "/proj/./missing"]).
Proof.
  exact (module_issues_follow_declaration_order Sample.world "/proj" Sample.main_tf
           [("vpc", PDict [("source", PStr "./modules/vpc")]);
            ("mirror", PDict [("source", PStr "https://example.invalid/mod")]);
            ("registry", PDict [("source", PStr "git::ssh://example.invalid/repo")])]
           [("blank", PDict [("source", PStr "")]);
            ("bare", PDict [("version", PStr "1.0")]);
            ("gone", PDict [("source", PStr "./missing")])]
           _ _ _ _ eq_refl eq_refl eq_refl).
Defined.

End OnSamples.
